(** * A user-account CRUD service: schemas, model, session manager, routers

    A shallow embedding of the service under [src/]:

    - [app/schemas/user.py]   : the Pydantic models [UserCreate], [UserUpdate], [UserRead];
    - [app/models/user.py]    : the ORM entity [User] with [set_password] / [check_password];
    - [app/database/database.py] : [DatabaseManager] and the session dependency [get_db];
    - [app/routers/user.py]   : the five route handlers.

    The libraries the service is glued from are not part of the repository.  They are
    modelled by the part of their behaviour the code relies on:

    - Pydantic 2 ([field_validator] exists only there): a field annotated without a
      default is required, [Optional[T]] only admits [None] as a value, an "after"
      validator runs on every value that passed the declared type (on [None] too), and
      only [ValueError] raised by a validator becomes a validation error;
    - bcrypt (the [bcrypt] package before 5.0): the salt is the first 29 characters of
      the hash and only the first 72 bytes of the password are hashed (from 5.0 on,
      [hashpw] and [checkpw] raise [ValueError] for a longer password instead);
    - SQLAlchemy and the database: a table of rows, a unique index on [email], a
      primary key drawn from a sequence, and, supplied from outside (see [Env]), the
      failures of the storage and the order in which it returns the rows of a query
      that asks for none.

    Python [str] values are modelled as [string]; the development covers ASCII text, on
    which [len] counts characters and [encode('utf-8')] / [decode('utf-8')] change
    nothing. *)

From Stdlib Require Import ZArith List Ascii String Bool Sorted Lia.
From stdpp Require Import base option list strings gmap sorting.

Local Open Scope string_scope.

(** ** Python strings *)

Module PyStr.

Definition in_range (lo hi : nat) (c : ascii) : bool :=
  let n := nat_of_ascii c in Nat.leb lo n && Nat.leb n hi.

(** [c.isdigit()], [c.isupper()] and [c.isalpha()] for a one-character string of ASCII
    text.  Python's methods also hold for digits and letters outside ASCII, which a
    [string] of this development does not represent. *)
Definition char_isdigit (c : ascii) : bool := in_range 48 57 c.
Definition char_isupper (c : ascii) : bool := in_range 65 90 c.
Definition char_islower (c : ascii) : bool := in_range 97 122 c.
Definition char_isalpha (c : ascii) : bool := char_isupper c || char_islower c.

(** [s.isalpha()]: every character is alphabetic and there is at least one. *)
Definition isalpha (s : string) : bool :=
  match s with
  | EmptyString => false
  | _ => forallb char_isalpha (list_ascii_of_string s)
  end.

(** [any(char.isdigit() for char in s)] and [any(char.isupper() for char in s)]. *)
Definition any_isdigit (s : string) : bool := existsb char_isdigit (list_ascii_of_string s).
Definition any_isupper (s : string) : bool := existsb char_isupper (list_ascii_of_string s).

(** Truth value of an [Optional[str]] in an [if]: [None] and [""] are false. *)
Definition truthy (o : option string) : bool :=
  match o with
  | Some EmptyString => false
  | Some _ => true
  | None => false
  end.

(** [needle in hay]. *)
Definition contains (needle hay : string) : bool :=
  match String.index 0 needle hay with
  | Some _ => true
  | None => false
  end.

End PyStr.

(** ** Exceptions *)

Inductive py_exception : Type :=
| ValueError (msg : string)
| AttributeError (msg : string)
| TypeError (msg : string)
| IntegrityError
| SQLAlchemyError (msg : string)
| MultipleResultsFound
| Exception (msg : string).

Definition is_ValueError (e : py_exception) : bool :=
  match e with ValueError _ => true | _ => false end.

(** The result of running a Python function body. *)
Inductive raised (A : Type) : Type :=
| Ret (a : A)
| Raise (e : py_exception).
Arguments Ret {A} a.
Arguments Raise {A} e.

(** ** bcrypt *)

(** The Blowfish-based digest itself: from a 29-character salt and a key of at most 72
    bytes to the 31 characters that follow the salt in a hash. *)
Class bcrypt_lib := bcrypt_raw : string -> string -> string.

Module Bcrypt.
Section Bcrypt.
Context `{bcrypt_lib}.

Definition salt_of (s : string) : string := substring 0 29 s.
Definition key_of (password : string) : string := substring 0 72 password.

(** [bcrypt.hashpw(password, salt)]: [salt] may be a salt or a whole hash. *)
Definition hashpw (password salt : string) : string :=
  salt_of salt +:+ bcrypt_raw (salt_of salt) (key_of password).

(** [bcrypt.checkpw(password, hashed)]: hash again under the salt of [hashed], compare. *)
Definition checkpw (password hashed : string) : bool :=
  String.eqb (hashpw password hashed) hashed.

End Bcrypt.
End Bcrypt.

(** ** JSON request bodies *)

Inductive json : Type :=
| JNull
| JBool (b : bool)
| JNum (z : Z)
| JStr (s : string).

(** A JSON object: the request body once parsed. *)
Abbreviation body_t := (gmap string json).

(** ** Pydantic *)

(** The e-mail syntax check of [EmailStr] (package [email_validator]): the normalised
    address, or [None] when the text is not an address. *)
Class email_validator_lib := validate_email : string -> option string.

Module Pydantic.

Inductive error_type : Type :=
| missing
| string_type
| string_too_short
| string_too_long
| value_error (msg : string).

Record ErrorDetails : Type := { loc : string; type_ : error_type }.

(** Validation of one field: a value, the field's errors, or an exception that is not a
    validation error and leaves the validation at once. *)
Inductive field_result (A : Type) : Type :=
| FieldOk (a : A)
| FieldErrors (errs : list error_type)
| FieldRaise (e : py_exception).
Arguments FieldOk {A} a.
Arguments FieldErrors {A} errs.
Arguments FieldRaise {A} e.

(** Validation of a model.  [Invalid] is the aggregated [ValidationError] (FastAPI
    answers 422); [Raised] is any other exception (FastAPI answers 500). *)
Inductive validated (A : Type) : Type :=
| Valid (a : A)
| Invalid (errors : list ErrorDetails)
| Raised (e : py_exception).
Arguments Valid {A} a.
Arguments Invalid {A} errors.
Arguments Raised {A} e.

(** [str] with [Field(min_length=lo, max_length=hi)]: the bounds count characters,
    which on ASCII text is [String.length]. *)
Definition str_field (lo hi : nat) (v : json) : field_result string :=
  match v with
  | JStr s =>
      if Nat.ltb (String.length s) lo then FieldErrors [string_too_short]
      else if Nat.ltb hi (String.length s) then FieldErrors [string_too_long]
      else FieldOk s
  | _ => FieldErrors [string_type]
  end.

(** [EmailStr]. *)
Definition email_field `{email_validator_lib} (v : json) : field_result string :=
  match v with
  | JStr s =>
      match validate_email s with
      | Some e => FieldOk e
      | None => FieldErrors [value_error "value is not a valid email address"]
      end
  | _ => FieldErrors [string_type]
  end.

(** [Optional[T]]: [null] is a value of the type, anything else is checked as a [T]. *)
Definition nullable {A} (inner : json -> field_result A) (v : json)
  : field_result (option A) :=
  match v with
  | JNull => FieldOk None
  | _ =>
      match inner v with
      | FieldOk a => FieldOk (Some a)
      | FieldErrors errs => FieldErrors errs
      | FieldRaise e => FieldRaise e
      end
  end.

(** A [field_validator] in its default mode ("after"): it runs on the value the declared
    type produced; a [ValueError] it raises is a validation error of the field, any other
    exception propagates. *)
Definition after {A} (inner : json -> field_result A) (f : A -> raised A) (v : json)
  : field_result A :=
  match inner v with
  | FieldOk a =>
      match f a with
      | Ret b => FieldOk b
      | Raise (ValueError msg) => FieldErrors [value_error msg]
      | Raise e => FieldRaise e
      end
  | r => r
  end.

(** A field declared without a default is required: an absent key is an error. *)
Definition required {A} (name : string) (check : json -> field_result A) (body : body_t)
  : field_result A :=
  match body !! name with
  | Some v => check v
  | None => FieldErrors [missing]
  end.

Definition errors_at {A} (name : string) (r : field_result A) : list ErrorDetails :=
  match r with
  | FieldErrors errs => map (fun t => {| loc := name; type_ := t |}) errs
  | _ => []
  end.

(** A model of four fields, validated in the order of declaration: errors of all fields
    are collected; the first exception that is not a validation error ends the run. *)
Definition model4 {A B C D R} (mk : A -> B -> C -> D -> R)
    (n1 : string) (r1 : field_result A) (n2 : string) (r2 : field_result B)
    (n3 : string) (r3 : field_result C) (n4 : string) (r4 : field_result D)
  : validated R :=
  match r1 with FieldRaise e => Raised e | _ =>
  match r2 with FieldRaise e => Raised e | _ =>
  match r3 with FieldRaise e => Raised e | _ =>
  match r4 with FieldRaise e => Raised e | _ =>
  match r1, r2, r3, r4 with
  | FieldOk a, FieldOk b, FieldOk c, FieldOk d => Valid (mk a b c d)
  | _, _, _, _ =>
      Invalid (errors_at n1 r1 ++ errors_at n2 r2 ++ errors_at n3 r3 ++ errors_at n4 r4)
  end end end end end.

End Pydantic.

(** ** app/schemas/user.py *)

Module Schemas.

Module UserCreate.

Record t : Type := {
  first_name : string;
  last_name : string;
  email : string;
  password : string
}.

Definition validate_name (value : string) : raised string :=
  if negb (PyStr.isalpha value) then Raise (ValueError "Name must contain only letters")
  else Ret value.

Definition validate_password (value : string) : raised string :=
  if negb (PyStr.any_isdigit value)
  then Raise (ValueError "Password must contain at least one digit")
  else if negb (PyStr.any_isupper value)
  then Raise (ValueError "Password must contain at least one uppercase letter")
  else Ret value.

(** [UserCreate.model_validate(body)]. *)
Definition validate `{email_validator_lib} (body : body_t) : Pydantic.validated t :=
  Pydantic.model4 Build_t
    "first_name"
    (Pydantic.required "first_name"
       (Pydantic.after (Pydantic.str_field 2 128) validate_name) body)
    "last_name"
    (Pydantic.required "last_name"
       (Pydantic.after (Pydantic.str_field 2 128) validate_name) body)
    "email"
    (Pydantic.required "email" Pydantic.email_field body)
    "password"
    (Pydantic.required "password"
       (Pydantic.after (Pydantic.str_field 8 128) validate_password) body).

End UserCreate.

Module UserUpdate.

(** Every field is [Optional[...]] and none has a default. *)
Record t : Type := {
  first_name : option string;
  last_name : option string;
  email : option string;
  password : option string
}.

(** The validators are annotated [value: str] but run on whatever the declared type
    [Optional[str]] let through; on [None] the body fails before it can raise its own
    [ValueError]. *)
Definition validate_name (value : option string) : raised (option string) :=
  match value with
  | None => Raise (AttributeError "'NoneType' object has no attribute 'isalpha'")
  | Some s =>
      if negb (PyStr.isalpha s) then Raise (ValueError "Name must contain only letters")
      else Ret value
  end.

Definition validate_password (value : option string) : raised (option string) :=
  match value with
  | None => Raise (TypeError "'NoneType' object is not iterable")
  | Some s =>
      if negb (PyStr.any_isdigit s)
      then Raise (ValueError "Password must contain at least one digit")
      else if negb (PyStr.any_isupper s)
      then Raise (ValueError "Password must contain at least one uppercase letter")
      else Ret value
  end.

(** [UserUpdate.model_validate(body)]. *)
Definition validate `{email_validator_lib} (body : body_t) : Pydantic.validated t :=
  Pydantic.model4 Build_t
    "first_name"
    (Pydantic.required "first_name"
       (Pydantic.after (Pydantic.nullable (Pydantic.str_field 2 128)) validate_name) body)
    "last_name"
    (Pydantic.required "last_name"
       (Pydantic.after (Pydantic.nullable (Pydantic.str_field 2 128)) validate_name) body)
    "email"
    (Pydantic.required "email" (Pydantic.nullable Pydantic.email_field) body)
    "password"
    (Pydantic.required "password"
       (Pydantic.after (Pydantic.nullable (Pydantic.str_field 8 128)) validate_password)
       body).

End UserUpdate.

Module UserRead.

Record t : Type := {
  id : Z;
  first_name : string;
  last_name : string;
  email : string;
  created_at : option Z;
  updated_at : option Z
}.

End UserRead.

End Schemas.

(** ** app/models/user.py *)

Module Models.

Module User.

(** A row of table [users].  [id], [created_at] and [updated_at] are assigned by the
    storage when the row is written. *)
Record t : Type := {
  id : Z;
  first_name : string;
  last_name : string;
  email : string;
  salt : string;
  password : string;
  created_at : option Z;
  updated_at : option Z
}.

#[global] Instance eq_dec : EqDecision t.
Proof. solve_decision. Defined.

(** [User(email=..., first_name=..., last_name=...)]: a pending object; the attributes not
    given are unset (here: [0], [""], [None]) until [set_password] and the flush. *)
Definition new (email first_name last_name : string) : t :=
  {| id := 0; first_name := first_name; last_name := last_name; email := email;
     salt := ""; password := ""; created_at := None; updated_at := None |}.

Definition set_email (self : t) (v : string) : t :=
  {| id := id self; first_name := first_name self; last_name := last_name self;
     email := v; salt := salt self; password := password self;
     created_at := created_at self; updated_at := updated_at self |}.

Definition set_first_name (self : t) (v : string) : t :=
  {| id := id self; first_name := v; last_name := last_name self;
     email := email self; salt := salt self; password := password self;
     created_at := created_at self; updated_at := updated_at self |}.

Definition set_last_name (self : t) (v : string) : t :=
  {| id := id self; first_name := first_name self; last_name := v;
     email := email self; salt := salt self; password := password self;
     created_at := created_at self; updated_at := updated_at self |}.

Section Password.
Context `{bcrypt_lib}.

(** [set_password]: [gensalt] is what [bcrypt.gensalt()] returns in this call.
<<
    self.salt = bcrypt.gensalt().decode("utf-8")
    self.password = bcrypt.hashpw(plain_password.encode('utf-8'),
                                  self.salt.encode('utf-8')).decode("utf-8")
>> *)
Definition set_password (self : t) (plain_password : string) (gensalt : string) : t :=
  let salt' := gensalt in
  {| id := id self; first_name := first_name self; last_name := last_name self;
     email := email self; salt := salt';
     password := Bcrypt.hashpw plain_password salt';
     created_at := created_at self; updated_at := updated_at self |}.

(** [check_password]. *)
Definition check_password (self : t) (plain_password : string) : bool :=
  Bcrypt.checkpw plain_password (password self).

End Password.

End User.

End Models.

(** The [UserRead] view of a [User] ([response_model=UserRead], [from_attributes]). *)
Definition UserRead_of (u : Models.User.t) : Schemas.UserRead.t :=
  {| Schemas.UserRead.id := Models.User.id u;
     Schemas.UserRead.first_name := Models.User.first_name u;
     Schemas.UserRead.last_name := Models.User.last_name u;
     Schemas.UserRead.email := Models.User.email u;
     Schemas.UserRead.created_at := Models.User.created_at u;
     Schemas.UserRead.updated_at := Models.User.updated_at u |}.

(** ** The storage behind an [AsyncSession] *)

(** What the world outside the code supplies during one request: the salt drawn by
    [bcrypt.gensalt()], the clock of [func.now()], whether the storage fails at
    [commit] or at [refresh] for a reason other than the unique index (with [str(err)]
    of the error SQLAlchemy raises then; [Storage.statement_error_str] gives that text
    for an error raised while a statement ran), and where the storage puts a row in
    the result of a query that asks for no order ([scan_key]: rows come back by
    increasing key). *)
Record Env : Type := {
  gensalt : string;
  now : Z;
  commit_fault : option string;
  refresh_fault : option string;
  scan_key : Models.User.t -> Z
}.

Module Storage.

Import Models.

(** Table [users]: its rows, listed here in the order of insertion, and the next
    primary key.  The code leaves the primary key to the database; the model draws it
    from a counter that gives no value twice and that a refused INSERT does not
    advance.  The order of the list is not the order of a query result: see
    [select_all]. *)
Record Store : Type := {
  rows : list User.t;
  next_id : Z
}.

Definition empty : Store := {| rows := []; next_id := 1 |}.

(** The order the storage gives the result of a query without [ORDER BY]. *)
Definition scan_le (env : Env) (a b : User.t) : Prop :=
  (scan_key env a <= scan_key env b)%Z.

#[global] Instance scan_le_dec (env : Env) (a b : User.t) : Decision (scan_le env a b).
Proof. unfold scan_le; apply _. Defined.

(** [session.execute(select(User))] then [.scalars().all()]: every row of the table;
    the query asks for no order, so the rows come in the order the storage chooses. *)
Definition select_all (env : Env) (st : Store) : list User.t :=
  merge_sort (scan_le env) (rows st).

(** [session.execute(select(User).where(User.id == user_id))]. *)
Definition select_by_id (st : Store) (user_id : Z) : list User.t :=
  filter (fun u => User.id u = user_id) (rows st).

(** [result.scalar_one_or_none()]. *)
Definition scalar_one_or_none {A} (result : list A) : raised (option A) :=
  match result with
  | [] => Ret None
  | [a] => Ret (Some a)
  | _ => Raise MultipleResultsFound
  end.

(** The unique index on [email]: does a row other than [self_id] hold [email]? *)
Definition email_taken (st : Store) (self_id : option Z) (email : string) : bool :=
  existsb (fun u => bool_decide (User.email u = email)
                    && negb (bool_decide (Some (User.id u) = self_id)))
          (rows st).

Definition stamp_insert (st : Store) (env : Env) (u : User.t) : User.t :=
  {| User.id := next_id st; User.first_name := User.first_name u;
     User.last_name := User.last_name u; User.email := User.email u;
     User.salt := User.salt u; User.password := User.password u;
     User.created_at := Some (now env); User.updated_at := Some (now env) |}.

Definition stamp_update (env : Env) (u : User.t) : User.t :=
  {| User.id := User.id u; User.first_name := User.first_name u;
     User.last_name := User.last_name u; User.email := User.email u;
     User.salt := User.salt u; User.password := User.password u;
     User.created_at := User.created_at u; User.updated_at := Some (now env) |}.

Definition replace (u' : User.t) (l : list User.t) : list User.t :=
  map (fun r => if bool_decide (User.id r = User.id u') then u' else r) l.

(** A unit of work: it reads and writes the store and may raise.  A failed [commit]
    leaves the store as it was. *)
Definition session (A : Type) : Type := Store -> Store * raised A.

Definition ret {A} (a : A) : session A := fun st => (st, Ret a).

Definition bind {A B} (m : session A) (k : A -> session B) : session B :=
  fun st =>
    match m st with
    | (st', Ret a) => k a st'
    | (st', Raise e) => (st', Raise e)
    end.

(** [session.add(user); await session.commit()]: the INSERT. *)
Definition commit_add (env : Env) (user : User.t) : session User.t :=
  fun st =>
    match commit_fault env with
    | Some err => (st, Raise (SQLAlchemyError err))
    | None =>
        if email_taken st None (User.email user) then (st, Raise IntegrityError)
        else
          let row := stamp_insert st env user in
          ({| rows := rows st ++ [row]; next_id := next_id st + 1 |}, Ret row)
    end.

(** [await session.commit()] after attribute assignments on the loaded row [old]: an
    UPDATE is emitted only when some attribute changed, and it refreshes [updated_at]
    ([onupdate=func.now()]). *)
Definition commit_dirty (env : Env) (old user : User.t) : session User.t :=
  fun st =>
    match commit_fault env with
    | Some err => (st, Raise (SQLAlchemyError err))
    | None =>
        if bool_decide (user = old) then (st, Ret user)
        else if email_taken st (Some (User.id user)) (User.email user)
        then (st, Raise IntegrityError)
        else
          let row := stamp_update env user in
          ({| rows := replace row (rows st); next_id := next_id st |}, Ret row)
    end.

(** [await session.delete(user); await session.commit()]: the DELETE. *)
Definition commit_delete (env : Env) (user : User.t) : session unit :=
  fun st =>
    match commit_fault env with
    | Some err => (st, Raise (SQLAlchemyError err))
    | None =>
        ({| rows := filter (fun r => User.id r <> User.id user) (rows st);
            next_id := next_id st |}, Ret tt)
    end.

(** [await session.refresh(user)]: the row as stored. *)
Definition refresh (env : Env) (user : User.t) : session User.t :=
  fun st =>
    match refresh_fault env with
    | Some err => (st, Raise (SQLAlchemyError err))
    | None => (st, Ret user)
    end.

(** [str(err)] of an error raised while a statement ran ([sqlalchemy.exc.DBAPIError]),
    on an engine made without [hide_parameters], as [init_db] makes it: the driver's
    message, the statement, and the parameters it ran with (the line breaks of the
    text are written as spaces). *)
Definition quoted (s : string) : string := "'" +:+ s +:+ "'".

Definition statement_error_str (message statement : string) (parameters : list string)
  : string :=
  message +:+ " [SQL: " +:+ statement +:+ "] [parameters: ("
          +:+ String.concat ", " (map quoted parameters) +:+ ")]".

(** The INSERT that [commit] emits for an added [user], and its parameters: the columns
    of [User] whose value Python supplies. *)
Definition insert_statement : string :=
  "INSERT INTO users (first_name, last_name, email, salt, password, updated_at) "
  +:+ "VALUES ($1, $2, $3, $4, $5, now()) RETURNING users.id, users.created_at".

Definition insert_parameters (user : User.t) : list string :=
  [User.first_name user; User.last_name user; User.email user; User.salt user;
   User.password user].

End Storage.

(** [str(err)] when [err] is an instance of [SQLAlchemyError] (a subclass included). *)
Definition sqlalchemy_str (e : py_exception) : option string :=
  match e with
  | IntegrityError => Some "IntegrityError"
  | SQLAlchemyError msg => Some msg
  | MultipleResultsFound => Some "Multiple rows were found when one or none was required"
  | _ => None
  end.

(** ** app/database/database.py *)

Module Database.

(** Sessions are told apart by a number. *)
Definition session_id := nat.

(** What [self.engine] holds: the class [AsyncEngine] itself, as [__init__] leaves it, or
    an engine made by [create_async_engine]. *)
Inductive engine_t : Type :=
| AsyncEngine_class
| engine_instance (disposed : bool).

(** [session] is the [async_scoped_session] registry, given by the session it hands to
    the calling task; [_test_session_context] is the context variable as the calling
    context sees it.  [None] is Python's [None]. *)
Record DatabaseManager : Type := {
  engine : option engine_t;
  session_maker : option unit;
  session : option session_id;
  _test_session_context : option session_id
}.

(** [DatabaseManager.__init__]. *)
Definition __init__ : DatabaseManager :=
  {| engine := Some AsyncEngine_class;
     session_maker := None;
     session := None;
     _test_session_context := None |}.

(** [init_db]: [database_url] is [os.getenv("DATABASE_URL")]; [create_error] is the
    error with which [create_async_engine] refuses that URL, if it does (a text it cannot
    parse, a driver that is not installed or not asynchronous); [connect] is the failure
    of [engine.begin()] if the database cannot be reached; [scoped] is the session the
    new registry hands out.  [create_async_engine] runs first: when it raises, nothing
    has been assigned. *)
Definition init_db (self : DatabaseManager) (database_url : option string)
    (create_error : option string) (connect : option string) (scoped : session_id)
  : DatabaseManager * raised unit :=
  match database_url, create_error with
  | None, _ => (self, Raise (SQLAlchemyError "Expected string or URL object, got None"))
  | Some _, Some err => (self, Raise (SQLAlchemyError err))
  | Some _, None =>
      let self' :=
        {| engine := Some (engine_instance false);
           session_maker := Some tt;
           session := Some scoped;
           _test_session_context := _test_session_context self |} in
      match connect with
      | Some err => (self', Raise (Exception err))
      | None => (self', Ret tt)
      end
  end.

(** [close]. *)
Definition close (self : DatabaseManager) : DatabaseManager * raised unit :=
  match engine self with
  | Some (engine_instance _) =>
      ({| engine := Some (engine_instance true);
          session_maker := session_maker self;
          session := session self;
          _test_session_context := _test_session_context self |}, Ret tt)
  | Some AsyncEngine_class =>
      (* [AsyncEngine.dispose()] called on the class: no [self] *)
      (self, Raise (TypeError
         "AsyncEngine.dispose() missing 1 required positional argument: 'self'"))
  | None => (self, Raise (Exception "Can't dispose engine. Engine not initialized"))
  end.

Definition set_test_session (self : DatabaseManager) (s : session_id) : DatabaseManager :=
  {| engine := engine self; session_maker := session_maker self;
     session := session self; _test_session_context := Some s |}.

Definition reset_test_session (self : DatabaseManager) : DatabaseManager :=
  {| engine := engine self; session_maker := session_maker self;
     session := session self; _test_session_context := None |}.

(** What the consumer of the dependency does at the [yield]: it finishes, or an
    exception is raised there. *)
Inductive use_result : Type :=
| Completed
| Failed (e : py_exception).

Inductive session_event : Type :=
| Rollback (s : session_id)
| Close (s : session_id).

#[global] Instance session_event_eq_dec : EqDecision session_event.
Proof. solve_decision. Defined.

(** One run of the generator [get_db]: the session it yielded (if it got that far), the
    calls it made on sessions, in order, and how it ended. *)
Record get_db_run : Type := {
  yielded : option session_id;
  events : list session_event;
  result : raised unit
}.

(** [get_db], for the manager [dbmanager].
<<
    session = dbmanager.session()
    if session is None: raise Exception(...)     # a registry never returns None
    try:
        if test_session := dbmanager._test_session_context.get(): yield test_session
        else: yield session
    except Exception: await session.rollback(); raise
    finally: await session.close()
>> *)
Definition get_db (dbmanager : DatabaseManager) (use : session_id -> use_result)
  : get_db_run :=
  match session dbmanager with
  | None =>
      {| yielded := None; events := [];
         result := Raise (TypeError "'NoneType' object is not callable") |}
  | Some session =>
      let y := match _test_session_context dbmanager with
               | Some test_session => test_session
               | None => session
               end in
      match use y with
      | Completed =>
          {| yielded := Some y; events := [Close session]; result := Ret tt |}
      | Failed e =>
          {| yielded := Some y; events := [Rollback session; Close session];
             result := Raise e |}
      end
  end.

End Database.

(** ** app/routers/user.py *)

Module Routers.

Import Models Schemas.
Export Storage.

(** How a route handler ends: it returns, it raises [HTTPException], or another
    exception escapes it. *)
Inductive outcome (A : Type) : Type :=
| Return (a : A)
| HTTPException (status_code : nat) (detail : string)
| Unhandled (e : py_exception).
Arguments Return {A} a.
Arguments HTTPException {A} status_code detail.
Arguments Unhandled {A} e.

Definition HTTP_200_OK : nat := 200.
Definition HTTP_201_CREATED : nat := 201.
Definition HTTP_204_NO_CONTENT : nat := 204.
Definition HTTP_400_BAD_REQUEST : nat := 400.
Definition HTTP_404_NOT_FOUND : nat := 404.
Definition HTTP_422_UNPROCESSABLE_ENTITY : nat := 422.
Definition HTTP_500_INTERNAL_SERVER_ERROR : nat := 500.

(** [if value: user.attr = value] *)
Definition assign_if (value : option string) (setter : User.t -> string -> User.t)
    (user : User.t) : User.t :=
  if PyStr.truthy value
  then match value with Some v => setter user v | None => user end
  else user.

Section Handlers.
Context `{bcrypt_lib}.

(** [create_user]. *)
Definition create_user (user_create : UserCreate.t) (env : Env) (session : Store)
  : Store * outcome User.t :=
  let user := User.new (UserCreate.email user_create)
                       (UserCreate.first_name user_create)
                       (UserCreate.last_name user_create) in
  let user := User.set_password user (UserCreate.password user_create) (gensalt env) in
  match Storage.bind (Storage.commit_add env user) (Storage.refresh env) session with
  | (session', Ret user) => (session', Return user)
  | (session', Raise IntegrityError) =>
      (session', HTTPException HTTP_400_BAD_REQUEST "User with this email already exists")
  | (session', Raise e) =>
      match sqlalchemy_str e with
      | Some err =>
          (session', HTTPException HTTP_500_INTERNAL_SERVER_ERROR
                       ("Unable to create user: " +:+ err))
      | None => (session', Unhandled e)
      end
  end.

(** [get_users]. *)
Definition get_users (env : Env) (session : Store) : Store * outcome (list User.t) :=
  let users := Storage.select_all env session in
  if Nat.eqb (length users) 0
  then (session, HTTPException HTTP_404_NOT_FOUND "Users not found")
  else (session, Return users).

(** [get_user]. *)
Definition get_user (user_id : Z) (session : Store) : Store * outcome User.t :=
  match Storage.scalar_one_or_none (Storage.select_by_id session user_id) with
  | Raise e => (session, Unhandled e)
  | Ret None => (session, HTTPException HTTP_404_NOT_FOUND "User not found")
  | Ret (Some user) => (session, Return user)
  end.

(** The assignments in the [try] block of [update_user]. *)
Definition apply_update (user_update : UserUpdate.t) (env : Env) (user : User.t)
  : User.t :=
  let user := assign_if (UserUpdate.email user_update) User.set_email user in
  let user := assign_if (UserUpdate.first_name user_update) User.set_first_name user in
  let user := assign_if (UserUpdate.last_name user_update) User.set_last_name user in
  assign_if (UserUpdate.password user_update)
            (fun u p => User.set_password u p (gensalt env)) user.

(** [update_user]. *)
Definition update_user (user_id : Z) (user_update : UserUpdate.t) (env : Env)
    (session : Store) : Store * outcome User.t :=
  match Storage.scalar_one_or_none (Storage.select_by_id session user_id) with
  | Raise e => (session, Unhandled e)
  | Ret None => (session, HTTPException HTTP_404_NOT_FOUND "User not found")
  | Ret (Some user0) =>
      let user := apply_update user_update env user0 in
      match Storage.bind (Storage.commit_dirty env user0 user) (Storage.refresh env)
                         session with
      | (session', Ret user) => (session', Return user)
      | (session', Raise (ValueError err)) =>
          (session', HTTPException HTTP_422_UNPROCESSABLE_ENTITY err)
      | (session', Raise IntegrityError) =>
          (session', HTTPException HTTP_400_BAD_REQUEST
                       "User with this email already exists")
      | (session', Raise e) =>
          match sqlalchemy_str e with
          | Some err =>
              (session', HTTPException HTTP_500_INTERNAL_SERVER_ERROR
                           ("Unable to update user: " +:+ err))
          | None => (session', Unhandled e)
          end
      end
  end.

(** [delete_user]. *)
Definition delete_user (user_id : Z) (env : Env) (session : Store)
  : Store * outcome unit :=
  match Storage.scalar_one_or_none (Storage.select_by_id session user_id) with
  | Raise e => (session, Unhandled e)
  | Ret None => (session, HTTPException HTTP_404_NOT_FOUND "User not found")
  | Ret (Some user) =>
      match Storage.commit_delete env user session with
      | (session', Ret _) => (session', Return tt)
      | (session', Raise e) =>
          match sqlalchemy_str e with
          | Some err =>
              (session', HTTPException HTTP_500_INTERNAL_SERVER_ERROR
                           ("Unable to delete user: " +:+ err))
          | None => (session', Unhandled e)
          end
      end
  end.

End Handlers.

(** *** The routes: request validation, handler, response model *)

Inductive content : Type :=
| UserJson (u : UserRead.t)
| UserListJson (l : list UserRead.t)
| Detail (detail : string)
| ValidationErrors (errors : list Pydantic.ErrorDetails)
| NoBody
| InternalServerError.

Record Response : Type := {
  status_code : nat;
  body : content
}.

(** The answer to a handler's outcome, for a route declared with [status_code=success]
    and a response model rendered by [render]. *)
Definition respond {A} (success : nat) (render : A -> content) (o : outcome A)
  : Response :=
  match o with
  | Return a => {| status_code := success; body := render a |}
  | HTTPException code detail => {| status_code := code; body := Detail detail |}
  | Unhandled _ =>
      {| status_code := HTTP_500_INTERNAL_SERVER_ERROR; body := InternalServerError |}
  end.

(** The answer to a request whose body Pydantic did not accept. *)
Definition reject {A} (v : Pydantic.validated A) : Response :=
  match v with
  | Pydantic.Invalid errors =>
      {| status_code := HTTP_422_UNPROCESSABLE_ENTITY; body := ValidationErrors errors |}
  | _ => {| status_code := HTTP_500_INTERNAL_SERVER_ERROR; body := InternalServerError |}
  end.

Inductive Request : Type :=
| POST_users (payload : body_t)
| GET_users
| GET_user (user_id : Z)
| PUT_user (user_id : Z) (payload : body_t)
| DELETE_user (user_id : Z).

Section App.
Context `{bcrypt_lib} `{email_validator_lib}.

Definition app (req : Request) (env : Env) (session : Store) : Store * Response :=
  match req with
  | POST_users payload =>
      match UserCreate.validate payload with
      | Pydantic.Valid user_create =>
          let '(session', o) := create_user user_create env session in
          (session', respond HTTP_201_CREATED (fun u => UserJson (UserRead_of u)) o)
      | v => (session, reject v)
      end
  | GET_users =>
      let '(session', o) := get_users env session in
      (session', respond HTTP_200_OK (fun l => UserListJson (map UserRead_of l)) o)
  | GET_user user_id =>
      let '(session', o) := get_user user_id session in
      (session', respond HTTP_200_OK (fun u => UserJson (UserRead_of u)) o)
  | PUT_user user_id payload =>
      match UserUpdate.validate payload with
      | Pydantic.Valid user_update =>
          let '(session', o) := update_user user_id user_update env session in
          (session', respond HTTP_200_OK (fun u => UserJson (UserRead_of u)) o)
      | v => (session, reject v)
      end
  | DELETE_user user_id =>
      let '(session', o) := delete_user user_id env session in
      (session', respond HTTP_204_NO_CONTENT (fun _ => NoBody) o)
  end.

End App.

End Routers.

(** ** Instances for running the model on concrete requests *)

Module Sample.

(** A stand-in for the digest: it keeps the key. *)
Definition bcrypt : bcrypt_lib := fun salt key => key.

(** A stand-in for the e-mail check: an address has an [@]. *)
Definition email : email_validator_lib :=
  fun s => if existsb (fun c => Ascii.eqb c "@"%char) (list_ascii_of_string s)
           then Some s else None.

(** A healthy storage that returns rows by identity. *)
Definition env : Env :=
  {| gensalt := "$2b$12$abcdefghijklmnopqrstuv"; now := 1000;
     commit_fault := None; refresh_fault := None;
     scan_key := Models.User.id |}.

(** The payload of the test-suite's [test_create_user_success]. *)
Definition user_data : body_t :=
  <[ "first_name" := JStr "User" ]>
    (<[ "last_name" := JStr "Test" ]>
       (<[ "email" := JStr "usertest@test.com" ]>
          {[ "password" := JStr "Passaword123" ]})).

Definition user_create : Schemas.UserCreate.t :=
  {| Schemas.UserCreate.first_name := "User";
     Schemas.UserCreate.last_name := "Test";
     Schemas.UserCreate.email := "usertest@test.com";
     Schemas.UserCreate.password := "Passaword123" |}.

(** The store after that request. *)
Definition one_user : Storage.Store :=
  fst (@Routers.create_user bcrypt user_create env Storage.empty).



End Sample.

(** ** The requests of the test-suite ([tests/test_user.py]) *)

Module Tests.

Import Routers.

Definition payload (first_name last_name email password : string) : body_t :=
  <[ "first_name" := JStr first_name ]>
    (<[ "last_name" := JStr last_name ]>
       (<[ "email" := JStr email ]> {[ "password" := JStr password ]})).

Definition user_data : body_t := payload "User" "Test" "usertest@test.com" "Passaword123".
Definition invalid_data : body_t := payload "U" "Test" "usertest@test.com" "pass".
Definition user_data1 : body_t := payload "UserF" "TestF" "usertest1@test.com" "Passaword123".
Definition user_data2 : body_t := payload "UserS" "TestS" "usertest2@test.com" "Passaword123".
Definition user_data_updated : body_t :=
  payload "UserU" "TestU" "usertest1@test.com" "Passaword1234".

(** The requests of a test, one after the other, on an empty table; the responses. *)
Fixpoint run (reqs : list Request) (session : Store) : list Response :=
  match reqs with
  | [] => []
  | req :: reqs =>
      let '(session', response) :=
        @app Sample.bcrypt Sample.email req Sample.env session in
      response :: run reqs session'
  end.

Definition statuses (reqs : list Request) : list nat :=
  map status_code (run reqs Storage.empty).

Definition first_names (r : Response) : list string :=
  match body r with
  | UserJson u => [Schemas.UserRead.first_name u]
  | UserListJson l => map Schemas.UserRead.first_name l
  | _ => []
  end.

End Tests.

(** ** Writes, reachable stores, credentials *)

Module Invariants.

Import Routers Schemas Models.

(** Creation order on rows: identities are handed out in increasing order. *)
Abbreviation id_lt := (fun a b : User.t => (User.id a < User.id b)%Z).


Section Invariants.
Context `{bcrypt_lib}.

(** What a request can do to the store: nothing, one INSERT, one UPDATE of the row
    loaded by its identity, or one DELETE. *)
Inductive write (env : Env) (st : Store) : Store -> Prop :=
| write_none : write env st st
| write_insert (user_create : UserCreate.t) :
    write env st
      {| rows := rows st ++
           [Storage.stamp_insert st env
              (User.set_password
                 (User.new (UserCreate.email user_create)
                    (UserCreate.first_name user_create)
                    (UserCreate.last_name user_create))
                 (UserCreate.password user_create) (gensalt env))];
         next_id := next_id st + 1 |}
| write_update (user_update : UserUpdate.t) (user0 : User.t) :
    user0 ∈ rows st ->
    write env st
      {| rows := Storage.replace
                   (Storage.stamp_update env (apply_update user_update env user0))
                   (rows st);
         next_id := next_id st |}
| write_delete (user : User.t) :
    write env st
      {| rows := filter (fun r => User.id r <> User.id user) (rows st);
         next_id := next_id st |}.

(** Rows are kept by increasing identity, below the next identity to hand out:
    identities are handed out in increasing order, so this is the order of creation. *)
Definition in_creation_order (st : Store) : Prop :=
  StronglySorted id_lt (rows st) /\
  Forall (fun u => (User.id u < next_id st)%Z) (rows st).

(** [u'] carries the salt and the hash of [u]. *)
Definition same_credentials (u u' : User.t) : Prop :=
  User.salt u' = User.salt u /\ User.password u' = User.password u.

(** [u'] carries the salt drawn in this request and the hash of [p] under it. *)
Definition fresh_credentials (env : Env) (p : string) (u' : User.t) : Prop :=
  User.salt u' = gensalt env /\ User.password u' = Bcrypt.hashpw p (gensalt env).

Context `{email_validator_lib}.

(** The stores the service can be in: the empty table, and what a request leaves. *)
Inductive reachable : Store -> Prop :=
| reachable_empty : reachable Storage.empty
| reachable_app (req : Request) (env : Env) (st : Store) :
    reachable st -> reachable (fst (app req env st)).

End Invariants.

End Invariants.

(** ** More sample values *)

Module Sample2.

(** An update object that sets the e-mail only, as the handler can be handed one. *)
Definition email_only : Schemas.UserUpdate.t :=
  {| Schemas.UserUpdate.first_name := None; Schemas.UserUpdate.last_name := None;
     Schemas.UserUpdate.email := Some "usertest1@test.com";
     Schemas.UserUpdate.password := None |}.

(** The store and the user after [update_user 1 email_only] on [Sample.one_user]. *)
Definition one_user_renamed : Storage.Store :=
  fst (@Routers.update_user Sample.bcrypt 1 email_only Sample.env Sample.one_user).

Definition renamed : Models.User.t :=
  {| Models.User.id := 1; Models.User.first_name := "User";
     Models.User.last_name := "Test"; Models.User.email := "usertest1@test.com";
     Models.User.salt := "$2b$12$abcdefghijklmnopqrstuv";
     Models.User.password := "$2b$12$abcdefghijklmnopqrstuvPassaword123";
     Models.User.created_at := Some 1000%Z; Models.User.updated_at := Some 1000%Z |}.

(** A storage that commits and then fails at [refresh]. *)
Definition env_refresh_fails : Env :=
  {| gensalt := "$2b$12$abcdefghijklmnopqrstuv"; now := 1000;
     commit_fault := None; refresh_fault := Some "connection lost";
     scan_key := Models.User.id |}.



(** The store after the two POSTs of [test_get_users_success]. *)
Definition two_users : Storage.Store :=
  fst (@Routers.app Sample.bcrypt Sample.email (Routers.POST_users Tests.user_data2)
         Sample.env
         (fst (@Routers.app Sample.bcrypt Sample.email
                 (Routers.POST_users Tests.user_data1) Sample.env Storage.empty))).

(** The manager after an [init_db] that made an engine and could not reach the
    database. *)
Definition manager_no_database : Database.DatabaseManager :=
  fst (Database.init_db Database.__init__ (Some "postgresql+asyncpg://db") None
         (Some "connection refused") 1).

(** An update body with [null] for the e-mail, and the object made from it. *)
Definition null_email_data : body_t :=
  <[ "first_name" := JStr "UserU" ]>
    (<[ "last_name" := JStr "TestU" ]>
       (<[ "email" := JNull ]> {[ "password" := JStr "Passaword1234" ]})).

Definition null_email_update : Schemas.UserUpdate.t :=
  {| Schemas.UserUpdate.first_name := Some "UserU";
     Schemas.UserUpdate.last_name := Some "TestU";
     Schemas.UserUpdate.email := None;
     Schemas.UserUpdate.password := Some "Passaword1234" |}.



(** An address of 133 characters, more than the column [email] ([String(128)]) holds:
    a local part of 60 characters and a domain of 72. *)
Definition long_email : string :=
  "uuuuuuuuuuuuuuuuuuuuuuuuuuuuuuuuuuuuuuuuuuuuuuuuuuuuuuuuuuuu@"
  +:+ "dddddddddddddddddddddddddddddddddddddddddddddddddddddddddddd.example.com".

Definition long_email_data : body_t :=
  Tests.payload "User" "Test" long_email "Passaword123".

(** The object that [create_user] adds to the session for [long_email_data]. *)
Definition long_email_user : Models.User.t :=
  @Models.User.set_password Sample.bcrypt (Models.User.new long_email "User" "Test")
    "Passaword123" "$2b$12$abcdefghijklmnopqrstuv".

(** A PostgreSQL storage at the INSERT of [long_email_user]: it refuses the value that
    is too long for its column, and SQLAlchemy raises the driver's error with the
    statement and its parameters. *)
Definition env_insert_fails : Env :=
  {| gensalt := "$2b$12$abcdefghijklmnopqrstuv"; now := 1000;
     commit_fault :=
       Some (Storage.statement_error_str
               ("(sqlalchemy.dialects.postgresql.asyncpg.Error) "
                +:+ "value too long for type character varying(128)")
               Storage.insert_statement (Storage.insert_parameters long_email_user));
     refresh_fault := None;
     scan_key := Models.User.id |}.

End Sample2.

(** ** The managers a process can hold *)

Module Lifecycle.

Import Database.

(** The manager made by [DatabaseManager()], and what its methods make of it. *)
Inductive reachable : DatabaseManager -> Prop :=
| reachable_new : reachable __init__
| reachable_init_db (m : DatabaseManager)
    (database_url create_error connect : option string) (scoped : session_id) :
    reachable m -> reachable (fst (init_db m database_url create_error connect scoped))
| reachable_close (m : DatabaseManager) : reachable m -> reachable (fst (close m))
| reachable_set (m : DatabaseManager) (s : session_id) :
    reachable m -> reachable (set_test_session m s)
| reachable_reset (m : DatabaseManager) :
    reachable m -> reachable (reset_test_session m).

End Lifecycle.

(** * Properties *)

Import Routers Schemas Models.

(** ** The test-suite, run on the model *)

Module TestSuite.
Import Tests.

Example test_create_user_success :
  statuses [POST_users user_data] = [201].
Proof. reflexivity. Qed.

Example test_create_user_invalid_data :
  statuses [POST_users invalid_data] = [422].
Proof. reflexivity. Qed.

Example test_get_user_not_found :
  run [GET_user 1] Storage.empty
  = [{| status_code := 404; body := Detail "User not found" |}].
Proof. reflexivity. Qed.

Example test_get_user_success :
  statuses [POST_users user_data; GET_user 1] = [201; 200].
Proof. reflexivity. Qed.

Example test_get_users_success :
  map first_names (run [POST_users user_data1; POST_users user_data2; GET_users]
                       Storage.empty)
  = [["UserF"]; ["UserS"]; ["UserF"; "UserS"]].
Proof. reflexivity. Qed.

Example test_get_users_not_found :
  run [GET_users] Storage.empty
  = [{| status_code := 404; body := Detail "Users not found" |}].
Proof. reflexivity. Qed.

Example test_update_user_success :
  map (fun r => (status_code r, first_names r))
      (run [POST_users user_data; PUT_user 1 user_data_updated] Storage.empty)
  = [(201, ["User"]); (200, ["UserU"])].
Proof. reflexivity. Qed.

Example test_update_user_not_found :
  statuses [PUT_user 1 user_data_updated] = [404].
Proof. reflexivity. Qed.

Example test_delete_user_success :
  statuses [POST_users user_data; DELETE_user 1] = [201; 204].
Proof. reflexivity. Qed.

Example test_delete_user_not_found :
  statuses [DELETE_user 1] = [404].
Proof. reflexivity. Qed.

(** Beyond the test-suite: a second POST with a stored e-mail is a conflict. *)
Example create_same_email_twice :
  statuses [POST_users user_data; POST_users user_data] = [201; 400].
Proof. reflexivity. Qed.

End TestSuite.

Module PydanticFacts.
Import Pydantic Schemas.

Lemma model4_raised {A B C D R} (mk : A -> B -> C -> D -> R) n1 r1 n2 r2 n3 r3 n4 r4 :
  (exists e, r1 = FieldRaise e) \/ (exists e, r2 = FieldRaise e) \/
  (exists e, r3 = FieldRaise e) \/ (exists e, r4 = FieldRaise e) ->
  exists e, model4 mk n1 r1 n2 r2 n3 r3 n4 r4 = Raised e /\
            (r1 = FieldRaise e \/ r2 = FieldRaise e \/ r3 = FieldRaise e \/ r4 = FieldRaise e).
Proof.
  intros Hr; unfold model4.
  destruct r1; [ | | eauto ].
  all: destruct r2; [ | | eauto 6 ].
  all: destruct r3; [ | | eauto 6 ].
  all: destruct r4; [ | | eauto 7 ].
  all: destruct Hr as [[e He]|[[e He]|[[e He]|[e He]]]]; discriminate He.
Qed.

Lemma model4_valid {A B C D R} (mk : A -> B -> C -> D -> R) n1 r1 n2 r2 n3 r3 n4 r4 v :
  model4 mk n1 r1 n2 r2 n3 r3 n4 r4 = Valid v ->
  exists a b c d, r1 = FieldOk a /\ r2 = FieldOk b /\ r3 = FieldOk c /\ r4 = FieldOk d
                  /\ v = mk a b c d.
Proof.
  unfold model4; destruct r1, r2, r3, r4; intros Hv; try discriminate Hv.
  injection Hv as <-; eauto 10.
Qed.

Lemma update_name_raise lo hi v e :
  after (nullable (str_field lo hi)) UserUpdate.validate_name v = FieldRaise e ->
  v = JNull /\ e = AttributeError "'NoneType' object has no attribute 'isalpha'".
Proof.
  unfold after, nullable, str_field, UserUpdate.validate_name.
  destruct v as [ | b | z | s ]; try discriminate.
  - intros [= <-]; auto.
  - destruct (Nat.ltb _ lo); [discriminate|].
    destruct (Nat.ltb hi _); [discriminate|].
    destruct (negb _); discriminate.
Qed.

Lemma update_password_raise lo hi v e :
  after (nullable (str_field lo hi)) UserUpdate.validate_password v = FieldRaise e ->
  v = JNull /\ e = TypeError "'NoneType' object is not iterable".
Proof.
  unfold after, nullable, str_field, UserUpdate.validate_password.
  destruct v as [ | b | z | s ]; try discriminate.
  - intros [= <-]; auto.
  - destruct (Nat.ltb _ lo); [discriminate|].
    destruct (Nat.ltb hi _); [discriminate|].
    destruct (negb _); [discriminate|]. destruct (negb _); discriminate.
Qed.

Lemma update_email_no_raise `{email_validator_lib} v e :
  nullable email_field v <> FieldRaise e.
Proof.
  unfold nullable, email_field; destruct v; try discriminate.
  destruct (validate_email s); discriminate.
Qed.

Lemma required_raise {A} name (check : json -> field_result A) (payload : body_t) e :
  required name check payload = FieldRaise e ->
  exists v, payload !! name = Some v /\ check v = FieldRaise e.
Proof. unfold required; destruct (payload !! name); [eauto | discriminate]. Qed.

Lemma required_ok {A} name (check : json -> field_result A) (payload : body_t) a :
  required name check payload = FieldOk a ->
  exists v, payload !! name = Some v /\ check v = FieldOk a.
Proof. unfold required; destruct (payload !! name); [eauto | discriminate]. Qed.

End PydanticFacts.

(** C10.  An update payload that holds [null] under [first_name], [last_name] or
    [password]: [null] is a value of the declared type [Optional[str]]; the field's
    validator then runs on [None] and fails with [AttributeError] (names) or [TypeError]
    (password) before it can raise its own [ValueError]; so the validation of the payload
    ends with that exception, which is not a validation error: the route answers with
    the server's 500, not with a 422, and the handler, which would have left the field
    unchanged, does not run. *)
Theorem update_null_field_raises `{bcrypt_lib} `{email_validator_lib}
    (payload : body_t) (user_id : Z) (env : Env) (session : Store) :
  payload !! "first_name" = Some JNull \/ payload !! "last_name" = Some JNull
    \/ payload !! "password" = Some JNull ->
  Pydantic.nullable (Pydantic.str_field 2 128) JNull = Pydantic.FieldOk None /\
  Pydantic.nullable (Pydantic.str_field 8 128) JNull = Pydantic.FieldOk None /\
  (exists msg, UserUpdate.validate_name None = Raise (AttributeError msg)) /\
  (exists msg, UserUpdate.validate_password None = Raise (TypeError msg)) /\
  (exists e, UserUpdate.validate payload = Pydantic.Raised e /\ is_ValueError e = false /\
             ((exists msg, e = AttributeError msg) \/ (exists msg, e = TypeError msg))) /\
  app (PUT_user user_id payload) env session
  = (session, {| status_code := 500; body := InternalServerError |}).
Proof.
  intros Hnull.
  assert (Hraise : exists e, UserUpdate.validate payload = Pydantic.Raised e /\
            ((exists msg, e = AttributeError msg) \/ (exists msg, e = TypeError msg))).
  { unfold UserUpdate.validate.
    edestruct (PydanticFacts.model4_raised UserUpdate.Build_t) as (e & -> & He).
    - destruct Hnull as [Hn | [Hn | Hn]].
      + left. unfold Pydantic.required. rewrite Hn. eexists; reflexivity.
      + right; left. unfold Pydantic.required. rewrite Hn. eexists; reflexivity.
      + do 3 right. unfold Pydantic.required. rewrite Hn. eexists; reflexivity.
    - exists e; split; [reflexivity|].
      destruct He as [He | [He | [He | He]]];
        apply PydanticFacts.required_raise in He as (v & _ & He).
      + apply PydanticFacts.update_name_raise in He as [_ ->]; eauto.
      + apply PydanticFacts.update_name_raise in He as [_ ->]; eauto.
      + exfalso; exact (PydanticFacts.update_email_no_raise _ _ He).
      + apply PydanticFacts.update_password_raise in He as [_ ->]; eauto. }
  destruct Hraise as (e & Hv & He).
  repeat split; eauto.
  - exists e; repeat split; auto.
    destruct He as [[msg ->] | [msg ->]]; reflexivity.
  - unfold app; rewrite Hv; reflexivity.
Qed.

(** The payload [{"first_name": null}] sent to PUT /users/1. *)
Lemma update_null_field_raises_witness :
  ({[ "first_name" := JNull ]} : body_t) !! "first_name" = Some JNull /\
  @app Sample.bcrypt Sample.email (PUT_user 1 {[ "first_name" := JNull ]}) Sample.env
       Sample.one_user
  = (Sample.one_user, {| status_code := 500; body := InternalServerError |}).
Proof.
  split; [reflexivity|].
  apply (@update_null_field_raises Sample.bcrypt Sample.email
           {[ "first_name" := JNull ]} 1 Sample.env Sample.one_user).
  left; reflexivity.
Defined.

(** A payload that omits one of the four keys is never accepted: none of the fields of
    [UserUpdate] has a default. *)
Lemma update_validate_needs_every_key `{email_validator_lib} (payload : body_t)
    (user_update : UserUpdate.t) :
  UserUpdate.validate payload = Pydantic.Valid user_update ->
  is_Some (payload !! "first_name") /\ is_Some (payload !! "last_name") /\
  is_Some (payload !! "email") /\ is_Some (payload !! "password").
Proof.
  unfold UserUpdate.validate; intros Hv.
  apply PydanticFacts.model4_valid in Hv as (a & b & c & d & Ha & Hb & Hc & Hd & _).
  apply PydanticFacts.required_ok in Ha as (? & -> & _).
  apply PydanticFacts.required_ok in Hb as (? & -> & _).
  apply PydanticFacts.required_ok in Hc as (? & -> & _).
  apply PydanticFacts.required_ok in Hd as (? & -> & _).
  repeat split; eexists; reflexivity.
Qed.

(** The handler itself leaves alone every attribute whose field is [None] (or empty). *)
Lemma apply_update_keeps_unset `{bcrypt_lib} (user_update : UserUpdate.t) (env : Env)
    (user : User.t) :
  let user' := apply_update user_update env user in
  User.id user' = User.id user /\
  (PyStr.truthy (UserUpdate.email user_update) = false ->
   User.email user' = User.email user) /\
  (PyStr.truthy (UserUpdate.first_name user_update) = false ->
   User.first_name user' = User.first_name user) /\
  (PyStr.truthy (UserUpdate.last_name user_update) = false ->
   User.last_name user' = User.last_name user) /\
  (PyStr.truthy (UserUpdate.password user_update) = false ->
   User.salt user' = User.salt user /\ User.password user' = User.password user).
Proof.
  destruct user_update as [fn ln em pw]; unfold apply_update, assign_if; simpl.
  destruct (PyStr.truthy em) eqn:Eem, (PyStr.truthy fn) eqn:Efn,
    (PyStr.truthy ln) eqn:Eln, (PyStr.truthy pw) eqn:Epw;
    destruct em, fn, ln, pw; try discriminate; simpl; repeat split; congruence.
Qed.

(** C1 (evaluation of the code at the failing input).  A PUT whose body holds only
    [email] is refused by the validation of [UserUpdate] with status 422: the three
    absent fields are reported missing, the handler does not run and the store is left
    as it was. *)
Theorem update_email_only_rejected `{bcrypt_lib} `{email_validator_lib}
    (user_id : Z) (env : Env) (session : Store) :
  exists errors,
    UserUpdate.validate {[ "email" := JStr "new@test.com" ]} = Pydantic.Invalid errors /\
    {| Pydantic.loc := "first_name"; Pydantic.type_ := Pydantic.missing |} ∈ errors /\
    {| Pydantic.loc := "last_name"; Pydantic.type_ := Pydantic.missing |} ∈ errors /\
    {| Pydantic.loc := "password"; Pydantic.type_ := Pydantic.missing |} ∈ errors /\
    app (PUT_user user_id {[ "email" := JStr "new@test.com" ]}) env session
    = (session, {| status_code := 422; body := ValidationErrors errors |}).
Proof.
  unfold app, UserUpdate.validate, Pydantic.required.
  replace (({[ "email" := JStr "new@test.com" ]} : body_t) !! "first_name")
    with (@None json) by reflexivity.
  replace (({[ "email" := JStr "new@test.com" ]} : body_t) !! "last_name")
    with (@None json) by reflexivity.
  replace (({[ "email" := JStr "new@test.com" ]} : body_t) !! "password")
    with (@None json) by reflexivity.
  replace (({[ "email" := JStr "new@test.com" ]} : body_t) !! "email")
    with (Some (JStr "new@test.com")) by reflexivity.
  unfold Pydantic.nullable, Pydantic.email_field.
  destruct (validate_email "new@test.com"); simpl;
    eexists; (split; [reflexivity|]); repeat split; set_solver.
Qed.

(** C5 (evaluation of the code at the failing input).  [close] on a manager on which
    [init_db] never ran: [self.engine] is the class [AsyncEngine], not [None], so the
    branch that raises "Engine not initialized" is not taken; the call
    [AsyncEngine.dispose()] fails with [TypeError]. *)
Theorem close_before_init_db :
  Database.close Database.__init__
  = (Database.__init__,
     Raise (TypeError "AsyncEngine.dispose() missing 1 required positional argument: 'self'"))
  /\ snd (Database.close Database.__init__)
     <> Raise (Exception "Can't dispose engine. Engine not initialized").
Proof. split; [reflexivity | discriminate]. Qed.

(** C2 (counterexample).  With the pooled session 1 and the test override 2 active, the
    caller is handed session 2; when it fails, and when it completes, the only calls made
    are on session 1: the override is neither rolled back nor closed. *)
Lemma get_db_override_not_released :
  Database.yielded
    (Database.get_db
       (Database.set_test_session
          (fst (Database.init_db Database.__init__ (Some "postgresql+asyncpg://db") None None 1)) 2)
       (fun _ => Database.Failed (Exception "boom"))) = Some 2%nat /\
  ~ In (Database.Rollback 2)
    (Database.events
      (Database.get_db
         (Database.set_test_session
            (fst (Database.init_db Database.__init__ (Some "postgresql+asyncpg://db") None None 1)) 2)
         (fun _ => Database.Failed (Exception "boom")))) /\
  ~ In (Database.Close 2)
    (Database.events
      (Database.get_db
         (Database.set_test_session
            (fst (Database.init_db Database.__init__ (Some "postgresql+asyncpg://db") None None 1)) 2)
         (fun _ => Database.Completed))).
Proof.
  split; [reflexivity|].
  split; cbn; intros Hin; intuition discriminate.
Qed.

(** C2 (amended).  On a manager whose registry hands out session [s]: the caller gets
    the test override if one is set and [s] otherwise; on a failure at the [yield] the
    manager rolls back [s], closes [s] and re-raises; on completion it closes [s].  All
    calls are made on [s], so without an override the session in use is the one rolled
    back and closed. *)
Theorem get_db_releases_pooled_session (dbmanager : Database.DatabaseManager)
    (s : Database.session_id) (use : Database.session_id -> Database.use_result) :
  Database.session dbmanager = Some s ->
  Database.yielded (Database.get_db dbmanager use)
  = Some (default s (Database._test_session_context dbmanager)) /\
  (Database._test_session_context dbmanager = None ->
   Database.yielded (Database.get_db dbmanager use) = Some s) /\
  (use (default s (Database._test_session_context dbmanager)) = Database.Completed ->
   Database.events (Database.get_db dbmanager use) = [Database.Close s] /\
   Database.result (Database.get_db dbmanager use) = Ret tt) /\
  (forall e,
   use (default s (Database._test_session_context dbmanager)) = Database.Failed e ->
   Database.events (Database.get_db dbmanager use)
   = [Database.Rollback s; Database.Close s] /\
   Database.result (Database.get_db dbmanager use) = Raise e).
Proof.
  intros Hs; unfold Database.get_db; rewrite Hs.
  destruct (Database._test_session_context dbmanager) as [t|]; simpl.
  - destruct (use t) eqn:Hu; simpl; repeat split; try congruence; intros e [= <-]; auto.
  - destruct (use s) eqn:Hu; simpl; repeat split; try congruence; intros e [= <-]; auto.
Qed.

Lemma get_db_releases_pooled_session_witness :
  Database.session
    (fst (Database.init_db Database.__init__ (Some "postgresql+asyncpg://db") None None 1))
  = Some 1%nat /\
  Database.events
    (Database.get_db
       (fst (Database.init_db Database.__init__ (Some "postgresql+asyncpg://db") None None 1))
       (fun _ => Database.Failed (Exception "boom")))
  = [Database.Rollback 1; Database.Close 1].
Proof.
  split; [reflexivity|].
  destruct (get_db_releases_pooled_session
              (fst (Database.init_db Database.__init__ (Some "postgresql+asyncpg://db")
                      None None 1))
              1%nat (fun _ => Database.Failed (Exception "boom")) eq_refl)
    as (_ & _ & _ & Hfailed).
  exact (proj1 (Hfailed (Exception "boom") eq_refl)).
Defined.

Module StringFacts.

Lemma substring_0_app (s t : string) :
  substring 0 (String.length s) (s +:+ t) = s.
Proof.
  induction s as [|c s IH]; simpl.
  - destruct t; reflexivity.
  - now rewrite IH.
Qed.

Lemma substring_0_length (s : string) : substring 0 (String.length s) s = s.
Proof.
  induction s as [|c s IH]; simpl; [reflexivity | now rewrite IH].
Qed.

Lemma app_inv_head (s a b : string) : s +:+ a = s +:+ b -> a = b.
Proof.
  induction s as [|c s IH]; simpl; [auto | intros [= Heq]; auto].
Qed.


End StringFacts.

Module BcryptFacts.
Section BcryptFacts.
Context `{bcrypt_lib}.

Lemma salt_of_salt (salt : string) :
  String.length salt = 29 -> Bcrypt.salt_of salt = salt.
Proof.
  intros Hlen; unfold Bcrypt.salt_of; rewrite <- Hlen.
  apply StringFacts.substring_0_length.
Qed.

Lemma salt_of_hash (salt digest : string) :
  String.length salt = 29 -> Bcrypt.salt_of (salt +:+ digest) = salt.
Proof.
  intros Hlen; unfold Bcrypt.salt_of; rewrite <- Hlen.
  apply StringFacts.substring_0_app.
Qed.

(** Against a hash made under a well-formed salt, [checkpw] compares digests of keys. *)
Lemma checkpw_hashpw (salt p q : string) :
  String.length salt = 29 ->
  Bcrypt.checkpw q (Bcrypt.hashpw p salt) = true <->
  bcrypt_raw salt (Bcrypt.key_of q) = bcrypt_raw salt (Bcrypt.key_of p).
Proof.
  intros Hlen; unfold Bcrypt.checkpw, Bcrypt.hashpw.
  rewrite (salt_of_salt salt Hlen), (salt_of_hash salt _ Hlen), String.eqb_eq.
  split; [apply StringFacts.app_inv_head | now intros ->].
Qed.


End BcryptFacts.
End BcryptFacts.




Module StorageFacts.

(** The unique index, as a proposition. *)
Lemma email_taken_iff (st : Store) (self_id : option Z) (email : string) :
  Storage.email_taken st self_id email = true <->
  exists u, u ∈ rows st /\ User.email u = email /\ Some (User.id u) <> self_id.
Proof.
  unfold Storage.email_taken; rewrite existsb_exists; split.
  - intros (u & Hin & Hu). apply andb_prop in Hu as [He Hn].
    apply bool_decide_eq_true in He. apply negb_true_iff, bool_decide_eq_false in Hn.
    exists u; split; [now apply list_elem_of_In | auto].
  - intros (u & Hin & He & Hn). exists u; split; [now apply list_elem_of_In|].
    apply andb_true_intro; split; [now apply bool_decide_eq_true|].
    now apply negb_true_iff, bool_decide_eq_false.
Qed.

End StorageFacts.

(** C6.  When no row has the identity [user_id], the handlers [get_user], [update_user]
    (on any [UserUpdate]) and [delete_user] raise [HTTPException] 404 "User not found"
    and hand back the store they were given; so do the routes GET, DELETE and, for any
    body that [UserUpdate] accepts, PUT. *)
Theorem not_found_leaves_store `{bcrypt_lib} `{email_validator_lib}
    (user_id : Z) (user_update : UserUpdate.t) (env : Env) (session : Store) :
  Storage.select_by_id session user_id = [] ->
  get_user user_id session
  = (session, HTTPException HTTP_404_NOT_FOUND "User not found") /\
  update_user user_id user_update env session
  = (session, HTTPException HTTP_404_NOT_FOUND "User not found") /\
  delete_user user_id env session
  = (session, HTTPException HTTP_404_NOT_FOUND "User not found") /\
  app (GET_user user_id) env session
  = (session, {| status_code := 404; body := Detail "User not found" |}) /\
  app (DELETE_user user_id) env session
  = (session, {| status_code := 404; body := Detail "User not found" |}) /\
  (forall payload : body_t,
   UserUpdate.validate payload = Pydantic.Valid user_update ->
   app (PUT_user user_id payload) env session
   = (session, {| status_code := 404; body := Detail "User not found" |})).
Proof.
  intros Hnone.
  assert (Hget : get_user user_id session
                 = (session, HTTPException HTTP_404_NOT_FOUND "User not found"))
    by (unfold get_user; now rewrite Hnone).
  assert (Hput : update_user user_id user_update env session
                 = (session, HTTPException HTTP_404_NOT_FOUND "User not found"))
    by (unfold update_user; now rewrite Hnone).
  assert (Hdel : delete_user user_id env session
                 = (session, HTTPException HTTP_404_NOT_FOUND "User not found"))
    by (unfold delete_user; now rewrite Hnone).
  repeat split; auto.
  - unfold app; now rewrite Hget.
  - unfold app; now rewrite Hdel.
  - intros payload Hvalid; unfold app; now rewrite Hvalid, Hput.
Qed.

Lemma not_found_leaves_store_witness :
  Storage.select_by_id Sample.one_user 7 = [] /\
  @delete_user 7 Sample.env Sample.one_user
  = (Sample.one_user, HTTPException HTTP_404_NOT_FOUND "User not found").
Proof.
  split; [reflexivity|].
  exact (proj1 (proj2 (proj2
    (@not_found_leaves_store Sample.bcrypt Sample.email 7
       {| UserUpdate.first_name := Some "UserU"; UserUpdate.last_name := Some "TestU";
          UserUpdate.email := Some "usertest1@test.com";
          UserUpdate.password := Some "Passaword1234" |}
       Sample.env Sample.one_user eq_refl)))).
Defined.



Module WriteFacts.
Import Invariants.

Section WriteFacts.
Context `{bcrypt_lib}.

Lemma select_by_id_elem (st : Store) (user_id : Z) (u : User.t) :
  u ∈ Storage.select_by_id st user_id <-> u ∈ rows st /\ User.id u = user_id.
Proof. unfold Storage.select_by_id; rewrite list_elem_of_filter; tauto. Qed.

Lemma scalar_one_elem {A} (result : list A) (a : A) :
  Storage.scalar_one_or_none result = Ret (Some a) -> result = [a].
Proof.
  destruct result as [|x [|y l]]; simpl; try discriminate. now intros [= ->].
Qed.

Lemma create_user_write (user_create : UserCreate.t) (env : Env) (st : Store) :
  write env st (fst (create_user user_create env st)).
Proof.
  unfold create_user, Storage.bind, Storage.commit_add, Storage.refresh.
  destruct (commit_fault env); simpl; [constructor|].
  destruct (Storage.email_taken _ _ _); simpl; [constructor|].
  destruct (refresh_fault env); simpl; apply write_insert.
Qed.

Lemma update_user_write (user_id : Z) (user_update : UserUpdate.t) (env : Env)
    (st : Store) :
  write env st (fst (update_user user_id user_update env st)).
Proof.
  unfold update_user.
  destruct (Storage.scalar_one_or_none _) as [[user0|]|e] eqn:Hsel; simpl;
    try constructor.
  apply scalar_one_elem in Hsel.
  assert (Hin : user0 ∈ rows st).
  { apply (select_by_id_elem st user_id); rewrite Hsel; apply list_elem_of_here. }
  unfold Storage.bind, Storage.commit_dirty, Storage.refresh.
  destruct (commit_fault env); simpl; [constructor|].
  destruct (bool_decide _); simpl.
  { destruct (refresh_fault env); simpl; constructor. }
  destruct (Storage.email_taken _ _ _); simpl; [constructor|].
  destruct (refresh_fault env); simpl; now apply write_update.
Qed.

Lemma delete_user_write (user_id : Z) (env : Env) (st : Store) :
  write env st (fst (delete_user user_id env st)).
Proof.
  unfold delete_user.
  destruct (Storage.scalar_one_or_none _) as [[user0|]|e]; simpl; try constructor.
  unfold Storage.commit_delete.
  destruct (commit_fault env); simpl; [constructor | apply write_delete].
Qed.

Context `{email_validator_lib}.

Lemma app_write (req : Request) (env : Env) (st : Store) :
  write env st (fst (app req env st)).
Proof.
  destruct req as [payload| |user_id|user_id payload|user_id]; unfold app.
  - destruct (UserCreate.validate payload) as [uc| |]; try constructor.
    generalize (create_user_write uc env st).
    now destruct (create_user uc env st).
  - unfold get_users. destruct (Nat.eqb _ _); constructor.
  - unfold get_user.
    destruct (Storage.scalar_one_or_none _) as [[user0|]|e]; constructor.
  - destruct (UserUpdate.validate payload) as [uu| |]; try constructor.
    generalize (update_user_write user_id uu env st).
    now destruct (update_user user_id uu env st).
  - generalize (delete_user_write user_id env st).
    now destruct (delete_user user_id env st).
Qed.

End WriteFacts.
End WriteFacts.

Module OrderFacts.
Import Invariants.

Lemma sorted_map_same_id (f : User.t -> User.t) (l : list User.t) :
  (forall r, User.id (f r) = User.id r) ->
  StronglySorted id_lt l -> StronglySorted id_lt (map f l).
Proof.
  intros Hf; induction 1 as [|a l Hl IH Ha]; simpl; constructor; auto.
  rewrite Forall_forall in *; intros y Hy.
  apply (list_elem_of_fmap f) in Hy as (x & -> & Hx).
  rewrite !Hf; auto.
Qed.

Lemma sorted_filter (P : User.t -> Prop) `{forall u, Decision (P u)}
    (l : list User.t) :
  StronglySorted id_lt l -> StronglySorted id_lt (filter P l).
Proof.
  induction 1 as [|a l Hl IH Ha]; [constructor|].
  rewrite filter_cons; destruct (decide (P a)); auto.
  constructor; auto.
  rewrite Forall_forall in *; intros y Hy.
  apply list_elem_of_filter in Hy as [_ Hy]; auto.
Qed.

Lemma sorted_snoc (l : list User.t) (u : User.t) :
  StronglySorted id_lt l -> Forall (fun r => (User.id r < User.id u)%Z) l ->
  StronglySorted id_lt (l ++ [u]).
Proof.
  intros Hl Hu; apply StronglySorted_app; repeat split; auto.
  - intros x1 x2 H1 H2; apply list_elem_of_singleton in H2 as ->.
    rewrite Forall_forall in Hu; auto.
  - repeat constructor.
Qed.

Section OrderFacts.
Context `{bcrypt_lib}.

Lemma apply_update_id (user_update : UserUpdate.t) (env : Env) (user : User.t) :
  User.id (Storage.stamp_update env (apply_update user_update env user)) = User.id user.
Proof. simpl; apply (apply_update_keeps_unset user_update env user). Qed.

Lemma replace_same_id (row r : User.t) :
  User.id (if bool_decide (User.id r = User.id row) then row else r) = User.id r.
Proof. case_bool_decide; congruence. Qed.

(** Every write keeps the table in creation order. *)
Lemma write_in_creation_order (env : Env) (st st' : Store) :
  write env st st' -> in_creation_order st -> in_creation_order st'.
Proof.
  intros Hw [Hsorted Hbound]; destruct Hw as [|uc|uu user0 Hin|user];
    unfold in_creation_order; simpl.
  - auto.
  - split.
    + apply sorted_snoc; auto.
    + apply Forall_app; split.
      * eapply Forall_impl; [exact Hbound | simpl; intros; lia].
      * repeat constructor; simpl; lia.
  - unfold Storage.replace; split.
    + apply sorted_map_same_id; auto using replace_same_id.
    + rewrite Forall_forall in *; intros y Hy.
      apply (list_elem_of_fmap _) in Hy as (x & -> & Hx).
      rewrite replace_same_id; auto.
  - split.
    + now apply sorted_filter.
    + rewrite Forall_forall in *; intros y Hy.
      apply list_elem_of_filter in Hy as [_ Hy]; auto.
Qed.

Context `{email_validator_lib}.

Lemma reachable_in_creation_order (st : Store) :
  reachable st -> in_creation_order st.
Proof.
  induction 1 as [|req env st Hst IH].
  - split; constructor.
  - eapply write_in_creation_order; [apply WriteFacts.app_write | exact IH].
Qed.

End OrderFacts.
End OrderFacts.

Module ScanFacts.


Lemma select_all_Permutation (env : Env) (st : Store) :
  Permutation (Storage.select_all env st) (rows st).
Proof. apply merge_sort_Permutation. Qed.



Lemma select_all_elem (env : Env) (st : Store) (u : User.t) :
  u ∈ Storage.select_all env st <-> u ∈ rows st.
Proof. now rewrite (select_all_Permutation env st). Qed.



End ScanFacts.



Module CredentialFacts.
Import Invariants.

Section CredentialFacts.
Context `{bcrypt_lib}.

(** The assignments of [update_user] either leave salt and hash as they are (no
    password in the payload) or set both through [set_password]. *)
Lemma apply_update_credentials (user_update : UserUpdate.t) (env : Env) (user : User.t) :
  (PyStr.truthy (UserUpdate.password user_update) = false /\
   same_credentials user (apply_update user_update env user)) \/
  (exists p, UserUpdate.password user_update = Some p /\ p <> "" /\
             fresh_credentials env p (apply_update user_update env user)).
Proof.
  destruct (PyStr.truthy (UserUpdate.password user_update)) eqn:Hpw.
  - right. destruct user_update as [fn ln em [p|]]; simpl in Hpw; [|discriminate].
    exists p; split; [reflexivity|]; split; [now destruct p|].
    unfold apply_update, assign_if; simpl; rewrite Hpw; split; reflexivity.
  - left; split; [reflexivity|].
    apply (apply_update_keeps_unset user_update env user); exact Hpw.
Qed.

Lemma replace_elem (row u' : User.t) (l : list User.t) :
  u' ∈ Storage.replace row l -> u' = row \/ u' ∈ l.
Proof.
  unfold Storage.replace; intros Hin.
  apply (list_elem_of_fmap _) in Hin as (x & -> & Hx).
  case_bool_decide; auto.
Qed.

Lemma replace_member (row user0 : User.t) (l : list User.t) :
  user0 ∈ l -> User.id user0 = User.id row -> row ∈ Storage.replace row l.
Proof.
  intros Hin Hid; unfold Storage.replace.
  apply (list_elem_of_fmap _); exists user0; split; [|exact Hin].
  now rewrite bool_decide_eq_true_2.
Qed.

(** Across any write, a row keeps the salt and the hash of the row of the same identity,
    or it holds the salt drawn in this request with a hash made under it. *)
Lemma write_credentials (env : Env) (st st' : Store) (u' : User.t) :
  write env st st' -> u' ∈ rows st' ->
  (exists u, u ∈ rows st /\ User.id u = User.id u' /\ same_credentials u u') \/
  (exists p, fresh_credentials env p u').
Proof.
  intros Hw Hin; destruct Hw as [|uc|uu user0 Hin0|user]; simpl in Hin.
  - left; exists u'; repeat split; auto.
  - apply elem_of_app in Hin as [Hin|Hin].
    + left; exists u'; repeat split; auto.
    + apply list_elem_of_singleton in Hin as ->.
      right; exists (UserCreate.password uc); split; reflexivity.
  - apply replace_elem in Hin as [->|Hin].
    + destruct (apply_update_credentials uu env user0) as [[_ Hsame]|(p & _ & _ & Hp)].
      * left; exists user0; repeat split; auto; [|apply Hsame|apply Hsame].
        symmetry; apply OrderFacts.apply_update_id.
      * right; exists p; exact Hp.
    + left; exists u'; repeat split; auto.
  - apply list_elem_of_filter in Hin as [_ Hin].
    left; exists u'; repeat split; auto.
Qed.

(** What the handlers return is a row of the store they leave. *)
Lemma create_user_return (user_create : UserCreate.t) (env : Env) (st st' : Store)
    (user : User.t) :
  create_user user_create env st = (st', Return user) ->
  user ∈ rows st' /\ fresh_credentials env (UserCreate.password user_create) user.
Proof.
  unfold create_user, Storage.bind, Storage.commit_add, Storage.refresh.
  destruct (commit_fault env); simpl; [discriminate|].
  destruct (Storage.email_taken _ _ _); simpl; [discriminate|].
  destruct (refresh_fault env); simpl; [discriminate|].
  intros [= <- <-]; simpl; split; [|split; reflexivity].
  apply elem_of_app; right; apply list_elem_of_here.
Qed.

Lemma update_user_return (user_id : Z) (user_update : UserUpdate.t) (env : Env)
    (st st' : Store) (user : User.t) :
  update_user user_id user_update env st = (st', Return user) ->
  user ∈ rows st' /\
  forall p, UserUpdate.password user_update = Some p -> p <> "" ->
            fresh_credentials env p user.
Proof.
  unfold update_user.
  destruct (Storage.scalar_one_or_none _) as [[user0|]|e] eqn:Hsel;
    try discriminate.
  apply WriteFacts.scalar_one_elem in Hsel.
  assert (Hin : user0 ∈ rows st).
  { apply (WriteFacts.select_by_id_elem st user_id); rewrite Hsel.
    apply list_elem_of_here. }
  assert (Hfresh : forall p, UserUpdate.password user_update = Some p -> p <> "" ->
                             fresh_credentials env p (apply_update user_update env user0)).
  { intros p Hp Hne.
    destruct (apply_update_credentials user_update env user0)
      as [[Hfalse _]|(p' & Hp' & _ & Hf)].
    - rewrite Hp in Hfalse; destruct p; [congruence | discriminate].
    - congruence. }
  unfold Storage.bind, Storage.commit_dirty, Storage.refresh.
  destruct (commit_fault env); simpl; [discriminate|].
  case_bool_decide as Hsame; simpl.
  - destruct (refresh_fault env); simpl; [discriminate|].
    intros [= <- <-]; split; [congruence | exact Hfresh].
  - destruct (Storage.email_taken _ _ _); simpl; [discriminate|].
    destruct (refresh_fault env); simpl; [discriminate|].
    intros [= <- <-]; simpl; split.
    + eapply replace_member; [exact Hin|].
      symmetry; apply OrderFacts.apply_update_id.
    + intros p Hp Hne; exact (Hfresh p Hp Hne).
Qed.

Lemma create_user_rows (user_create : UserCreate.t) (env : Env) (st : Store)
    (u' : User.t) :
  u' ∈ rows (fst (create_user user_create env st)) ->
  u' ∈ rows st \/ fresh_credentials env (UserCreate.password user_create) u'.
Proof.
  unfold create_user, Storage.bind, Storage.commit_add, Storage.refresh.
  destruct (commit_fault env); simpl; [auto|].
  destruct (Storage.email_taken _ _ _); simpl; [auto|].
  assert (Hrows : u' ∈ (rows st ++
            [Storage.stamp_insert st env
               (User.set_password
                  (User.new (UserCreate.email user_create)
                     (UserCreate.first_name user_create)
                     (UserCreate.last_name user_create))
                  (UserCreate.password user_create) (gensalt env))])%list ->
          u' ∈ rows st \/ fresh_credentials env (UserCreate.password user_create) u').
  { intros Hin; apply elem_of_app in Hin as [Hin|Hin]; [auto|].
    apply list_elem_of_singleton in Hin as ->; right; split; reflexivity. }
  destruct (refresh_fault env); simpl; exact Hrows.
Qed.

Lemma update_user_rows (user_id : Z) (user_update : UserUpdate.t) (env : Env)
    (st : Store) (u' : User.t) :
  u' ∈ rows (fst (update_user user_id user_update env st)) ->
  (exists u, u ∈ rows st /\ User.id u = User.id u' /\ same_credentials u u') \/
  (exists p, UserUpdate.password user_update = Some p /\ fresh_credentials env p u').
Proof.
  assert (Hkeep : u' ∈ rows st ->
    (exists u, u ∈ rows st /\ User.id u = User.id u' /\ same_credentials u u') \/
    (exists p, UserUpdate.password user_update = Some p /\ fresh_credentials env p u')).
  { intros Hin; left; exists u'; repeat split; auto. }
  unfold update_user.
  destruct (Storage.scalar_one_or_none _) as [[user0|]|e] eqn:Hsel; simpl; auto.
  apply WriteFacts.scalar_one_elem in Hsel.
  assert (Hin0 : user0 ∈ rows st).
  { apply (WriteFacts.select_by_id_elem st user_id); rewrite Hsel.
    apply list_elem_of_here. }
  unfold Storage.bind, Storage.commit_dirty, Storage.refresh.
  destruct (commit_fault env); simpl; auto.
  case_bool_decide as Hsame; simpl.
  { destruct (refresh_fault env); simpl; auto. }
  destruct (Storage.email_taken _ _ _); simpl; auto.
  assert (Hrows : u' ∈ Storage.replace
                    (Storage.stamp_update env (apply_update user_update env user0))
                    (rows st) ->
    (exists u, u ∈ rows st /\ User.id u = User.id u' /\ same_credentials u u') \/
    (exists p, UserUpdate.password user_update = Some p /\ fresh_credentials env p u')).
  { intros Hin; apply replace_elem in Hin as [->|Hin]; [|auto].
    destruct (apply_update_credentials user_update env user0)
      as [[_ Hs]|(p & Hp & _ & Hf)].
    - left; exists user0; split; [exact Hin0|]; split; [|exact Hs].
      symmetry; apply OrderFacts.apply_update_id.
    - right; exists p; split; [exact Hp | exact Hf]. }
  destruct (refresh_fault env); simpl; exact Hrows.
Qed.

End CredentialFacts.
End CredentialFacts.

(** C7.  Salt and hash change together, and only through [set_password]:
    - after [create_user], a row of the table is a row that was there or holds the salt
      drawn in this request and the hash of the payload's password under that salt;
    - after [update_user], a row holds the salt and the hash of the row of the same
      identity before, or the salt drawn in this request and the hash of the payload's
      password under it;
    - the user that [create_user] returns, and the user that [update_user] returns for
      a payload with a password, hold that fresh salt and the hash made under it;
    - for every request whatsoever, each row afterwards holds both salt and hash of the
      row of the same identity before, or a fresh salt with a hash made under it. *)
Theorem credentials_change_together `{bcrypt_lib} `{email_validator_lib} :
  (forall (user_create : UserCreate.t) (env : Env) (session : Store) (u' : User.t),
     u' ∈ rows (fst (create_user user_create env session)) ->
     u' ∈ rows session \/
     Invariants.fresh_credentials env (UserCreate.password user_create) u') /\
  (forall (user_id : Z) (user_update : UserUpdate.t) (env : Env) (session : Store)
          (u' : User.t),
     u' ∈ rows (fst (update_user user_id user_update env session)) ->
     (exists u, u ∈ rows session /\ User.id u = User.id u' /\
                Invariants.same_credentials u u') \/
     (exists p, UserUpdate.password user_update = Some p /\
                Invariants.fresh_credentials env p u')) /\
  (forall (user_create : UserCreate.t) (env : Env) (session session' : Store)
          (user : User.t),
     create_user user_create env session = (session', Return user) ->
     Invariants.fresh_credentials env (UserCreate.password user_create) user) /\
  (forall (user_id : Z) (user_update : UserUpdate.t) (env : Env)
          (session session' : Store) (user : User.t) (p : string),
     update_user user_id user_update env session = (session', Return user) ->
     UserUpdate.password user_update = Some p -> p <> "" ->
     Invariants.fresh_credentials env p user) /\
  (forall (req : Request) (env : Env) (session : Store) (u' : User.t),
     u' ∈ rows (fst (app req env session)) ->
     (exists u, u ∈ rows session /\ User.id u = User.id u' /\
                Invariants.same_credentials u u') \/
     (exists p, Invariants.fresh_credentials env p u')).
Proof.
  split; [|split; [|split; [|split]]].
  - intros uc env st u'; apply CredentialFacts.create_user_rows.
  - intros user_id uu env st u'; apply CredentialFacts.update_user_rows.
  - intros uc env st st' user Hret.
    apply (CredentialFacts.create_user_return uc env st st' user Hret).
  - intros user_id uu env st st' user p Hret.
    apply (CredentialFacts.update_user_return user_id uu env st st' user Hret).
  - intros req env st u'.
    apply CredentialFacts.write_credentials, WriteFacts.app_write.
Qed.

Module ResponseFacts.
Import Invariants.

Section ResponseFacts.
Context `{bcrypt_lib}.








End ResponseFacts.
End ResponseFacts.

(** C8 (evaluation of the code at the failing input).  A POST with a valid body whose
    e-mail is longer than the column: the storage refuses the INSERT with an error that
    is not an integrity error, and [create_user] answers 500 with the text of that error
    behind "Unable to create user: ".  The text is SQLAlchemy's rendering of the error,
    which quotes the parameters of the INSERT: the response carries the salt and the
    password hash of the user that was to be stored. *)
Theorem storage_error_text_reaches_client :
  UserCreate.validate (H := Sample.email) Sample2.long_email_data
  = Pydantic.Valid
      {| UserCreate.first_name := "User"; UserCreate.last_name := "Test";
         UserCreate.email := Sample2.long_email;
         UserCreate.password := "Passaword123" |} /\
  exists detail : string,
    @app Sample.bcrypt Sample.email (POST_users Sample2.long_email_data)
      Sample2.env_insert_fails Storage.empty
    = (Storage.empty, {| status_code := 500; body := Detail detail |}) /\
    detail
    = "Unable to create user: "
      +:+ Storage.statement_error_str
            ("(sqlalchemy.dialects.postgresql.asyncpg.Error) "
             +:+ "value too long for type character varying(128)")
            Storage.insert_statement
            (Storage.insert_parameters Sample2.long_email_user) /\
    User.salt Sample2.long_email_user = "$2b$12$abcdefghijklmnopqrstuv" /\
    User.password Sample2.long_email_user
    = @Bcrypt.hashpw Sample.bcrypt "Passaword123" "$2b$12$abcdefghijklmnopqrstuv" /\
    PyStr.contains (User.salt Sample2.long_email_user) detail = true /\
    PyStr.contains (User.password Sample2.long_email_user) detail = true.
Proof.
  split; [vm_compute; reflexivity|].
  eexists; split; [vm_compute; reflexivity|].
  repeat split; vm_compute; reflexivity.
Qed.

(** * Further properties *)

(** ** Which bodies the schemas accept *)

Module AcceptFacts.
Import Pydantic.

Lemma model4_valid_iff {A B C D R} (mk : A -> B -> C -> D -> R) n1 r1 n2 r2 n3 r3 n4 r4 v :
  model4 mk n1 r1 n2 r2 n3 r3 n4 r4 = Valid v <->
  exists a b c d, r1 = FieldOk a /\ r2 = FieldOk b /\ r3 = FieldOk c /\ r4 = FieldOk d
                  /\ v = mk a b c d.
Proof.
  split; [apply PydanticFacts.model4_valid|].
  intros (a & b & c & d & -> & -> & -> & -> & ->); reflexivity.
Qed.


Lemma required_ok_iff {A} name (check : json -> field_result A) (payload : body_t) a :
  required name check payload = FieldOk a <->
  exists v, payload !! name = Some v /\ check v = FieldOk a.
Proof.
  split; [apply PydanticFacts.required_ok|].
  intros (v & Hv & Hc); unfold required; now rewrite Hv.
Qed.

Lemma str_field_ok (lo hi : nat) (v : json) (s : string) :
  str_field lo hi v = FieldOk s <->
  v = JStr s /\ (lo <= String.length s <= hi)%nat.
Proof.
  unfold str_field; destruct v as [ | b | z | s']; try (split; [discriminate | intros [[=] _]]).
  destruct (Nat.ltb_spec (String.length s') lo) as [Hlo|Hlo].
  { split; [discriminate | intros [[= ->] Hlen]; lia]. }
  destruct (Nat.ltb_spec hi (String.length s')) as [Hhi|Hhi].
  { split; [discriminate | intros [[= ->] Hlen]; lia]. }
  split; [intros [= ->]; split; [reflexivity | lia] | now intros [[= ->] _]].
Qed.

(** A name field of [UserCreate]: a string of 2 to 128 letters. *)
Lemma create_name_ok (v : json) (s : string) :
  after (str_field 2 128) UserCreate.validate_name v = FieldOk s <->
  v = JStr s /\ (2 <= String.length s <= 128)%nat /\ PyStr.isalpha s = true.
Proof.
  unfold after.
  destruct (str_field 2 128 v) as [a|errs|e] eqn:Hf.
  - apply str_field_ok in Hf as [-> Hlen]; unfold UserCreate.validate_name.
    destruct (PyStr.isalpha a) eqn:Ha; simpl.
    + split; [intros [= ->]; auto | now intros [[= ->] _]].
    + split; [discriminate | intros [[= ->] [_ Hx]]; congruence].
  - split; [discriminate|]. intros (-> & Hlen & _).
    assert (Hok : str_field 2 128 (JStr s) = FieldOk s) by (apply str_field_ok; auto).
    congruence.
  - split; [discriminate|]. intros (-> & Hlen & _).
    assert (Hok : str_field 2 128 (JStr s) = FieldOk s) by (apply str_field_ok; auto).
    congruence.
Qed.

(** The password field of [UserCreate]: 8 to 128 characters, a digit, an uppercase. *)
Lemma create_password_ok (v : json) (s : string) :
  after (str_field 8 128) UserCreate.validate_password v = FieldOk s <->
  v = JStr s /\ (8 <= String.length s <= 128)%nat /\
  PyStr.any_isdigit s = true /\ PyStr.any_isupper s = true.
Proof.
  unfold after.
  destruct (str_field 8 128 v) as [a|errs|e] eqn:Hf.
  - apply str_field_ok in Hf as [-> Hlen]; unfold UserCreate.validate_password.
    destruct (PyStr.any_isdigit a) eqn:Hd, (PyStr.any_isupper a) eqn:Hu; simpl.
    + split; [intros [= ->]; auto | now intros [[= ->] _]].
    + split; [discriminate | intros [[= ->] (_ & _ & Hx)]; congruence].
    + split; [discriminate | intros [[= ->] (_ & Hx & _)]; congruence].
    + split; [discriminate | intros [[= ->] (_ & Hx & _)]; congruence].
  - split; [discriminate|]. intros (-> & Hlen & _).
    assert (Hok : str_field 8 128 (JStr s) = FieldOk s) by (apply str_field_ok; auto).
    congruence.
  - split; [discriminate|]. intros (-> & Hlen & _).
    assert (Hok : str_field 8 128 (JStr s) = FieldOk s) by (apply str_field_ok; auto).
    congruence.
Qed.

Lemma email_field_ok `{email_validator_lib} (v : json) (e : string) :
  email_field v = FieldOk e <-> exists raw, v = JStr raw /\ validate_email raw = Some e.
Proof.
  unfold email_field; destruct v as [ | b | z | s];
    try (split; [discriminate | intros (raw & [=] & _)]).
  destruct (validate_email s) as [e'|] eqn:He.
  - split; [intros [= ->]; eauto | intros (raw & [= <-] & Hr); congruence].
  - split; [discriminate | intros (raw & [= <-] & Hr); congruence].
Qed.

End AcceptFacts.

Module UpdateAcceptFacts.
Import Pydantic.

Lemma nullable_str_ok (lo hi : nat) (v : json) (o : option string) :
  nullable (str_field lo hi) v = FieldOk o <->
  (v = JNull /\ o = None) \/
  (exists s, v = JStr s /\ o = Some s /\ (lo <= String.length s <= hi)%nat).
Proof.
  unfold nullable.
  destruct v as [ | b | z | s].
  - split; [intros [= <-]; auto | intros [[_ ->]|(s & [=] & _)]; reflexivity].
  - simpl; split; [discriminate | intros [[[=] _]|(s & [=] & _)]].
  - simpl; split; [discriminate | intros [[[=] _]|(s & [=] & _)]].
  - destruct (str_field lo hi (JStr s)) as [a|errs|e] eqn:Hf.
    + apply AcceptFacts.str_field_ok in Hf as [[= <-] Hlen].
      split; [intros [= <-]; right; eauto | ].
      intros [[[=] _]|(s' & [= <-] & -> & _)]; reflexivity.
    + split; [discriminate|]. intros [[[=] _]|(s' & [= <-] & -> & Hlen)].
      assert (Hok : str_field lo hi (JStr s) = FieldOk s)
        by (apply AcceptFacts.str_field_ok; auto).
      congruence.
    + split; [discriminate|]. intros [[[=] _]|(s' & [= <-] & -> & Hlen)].
      assert (Hok : str_field lo hi (JStr s) = FieldOk s)
        by (apply AcceptFacts.str_field_ok; auto).
      congruence.
Qed.

(** A name field of [UserUpdate] is accepted only as a string of 2 to 128 letters:
    [null] reaches the validator and fails there. *)
Lemma update_name_ok (v : json) (o : option string) :
  after (nullable (str_field 2 128)) UserUpdate.validate_name v = FieldOk o <->
  exists s, v = JStr s /\ o = Some s /\ (2 <= String.length s <= 128)%nat /\
            PyStr.isalpha s = true.
Proof.
  unfold after.
  destruct (nullable (str_field 2 128) v) as [a|errs|e] eqn:Hf.
  - apply nullable_str_ok in Hf as [[-> ->]|(s & -> & -> & Hlen)]; simpl.
    + split; [discriminate | intros (s & [=] & _)].
    + destruct (PyStr.isalpha s) eqn:Ha; simpl.
      * split; [intros [= <-]; eauto 6 | intros (s' & [= <-] & -> & _); reflexivity].
      * split; [discriminate | intros (s' & [= <-] & _ & _ & Hx); congruence].
  - split; [discriminate|]. intros (s & -> & -> & Hlen & _).
    assert (Hok : nullable (str_field 2 128) (JStr s) = FieldOk (Some s))
      by (apply nullable_str_ok; right; eauto).
    congruence.
  - split; [discriminate|]. intros (s & -> & -> & Hlen & _).
    assert (Hok : nullable (str_field 2 128) (JStr s) = FieldOk (Some s))
      by (apply nullable_str_ok; right; eauto).
    congruence.
Qed.

Lemma update_password_ok (v : json) (o : option string) :
  after (nullable (str_field 8 128)) UserUpdate.validate_password v = FieldOk o <->
  exists s, v = JStr s /\ o = Some s /\ (8 <= String.length s <= 128)%nat /\
            PyStr.any_isdigit s = true /\ PyStr.any_isupper s = true.
Proof.
  unfold after.
  destruct (nullable (str_field 8 128) v) as [a|errs|e] eqn:Hf.
  - apply nullable_str_ok in Hf as [[-> ->]|(s & -> & -> & Hlen)]; simpl.
    + split; [discriminate | intros (s & [=] & _)].
    + destruct (PyStr.any_isdigit s) eqn:Hd, (PyStr.any_isupper s) eqn:Hu; simpl.
      * split; [intros [= <-]; eauto 7 | intros (s' & [= <-] & -> & _); reflexivity].
      * split; [discriminate | intros (s' & [= <-] & _ & _ & _ & Hx); congruence].
      * split; [discriminate | intros (s' & [= <-] & _ & _ & Hx & _); congruence].
      * split; [discriminate | intros (s' & [= <-] & _ & _ & Hx & _); congruence].
  - split; [discriminate|]. intros (s & -> & -> & Hlen & _).
    assert (Hok : nullable (str_field 8 128) (JStr s) = FieldOk (Some s))
      by (apply nullable_str_ok; right; eauto).
    congruence.
  - split; [discriminate|]. intros (s & -> & -> & Hlen & _).
    assert (Hok : nullable (str_field 8 128) (JStr s) = FieldOk (Some s))
      by (apply nullable_str_ok; right; eauto).
    congruence.
Qed.

Lemma update_email_ok `{email_validator_lib} (v : json) (o : option string) :
  nullable email_field v = FieldOk o <->
  (v = JNull /\ o = None) \/
  (exists raw e, v = JStr raw /\ validate_email raw = Some e /\ o = Some e).
Proof.
  unfold nullable.
  destruct v as [ | b | z | s].
  - split; [intros [= <-]; auto | intros [[_ ->]|(raw & e & [=] & _)]; reflexivity].
  - simpl; split; [discriminate | intros [[[=] _]|(raw & e & [=] & _)]].
  - simpl; split; [discriminate | intros [[[=] _]|(raw & e & [=] & _)]].
  - destruct (email_field (JStr s)) as [a|errs|e] eqn:Hf.
    + apply AcceptFacts.email_field_ok in Hf as (raw & [= <-] & Hraw).
      split; [intros [= <-]; right; eauto | ].
      intros [[[=] _]|(raw & e & [= <-] & He & ->)]; congruence.
    + split; [discriminate|]. intros [[[=] _]|(raw & e & [= <-] & He & ->)].
      assert (Hok : email_field (JStr s) = FieldOk e)
        by (apply AcceptFacts.email_field_ok; eauto).
      congruence.
    + split; [discriminate|]. intros [[[=] _]|(raw & e' & [= <-] & He & ->)].
      assert (Hok : email_field (JStr s) = FieldOk e')
        by (apply AcceptFacts.email_field_ok; eauto).
      congruence.
Qed.

End UpdateAcceptFacts.

Module ValidFacts.

(** What an accepted body holds. *)
Lemma create_valid_fields `{email_validator_lib} (payload : body_t)
    (user_create : UserCreate.t) :
  UserCreate.validate payload = Pydantic.Valid user_create ->
  (payload !! "first_name" = Some (JStr (UserCreate.first_name user_create)) /\
   (2 <= String.length (UserCreate.first_name user_create) <= 128)%nat /\
   PyStr.isalpha (UserCreate.first_name user_create) = true) /\
  (payload !! "last_name" = Some (JStr (UserCreate.last_name user_create)) /\
   (2 <= String.length (UserCreate.last_name user_create) <= 128)%nat /\
   PyStr.isalpha (UserCreate.last_name user_create) = true) /\
  (exists raw, payload !! "email" = Some (JStr raw) /\
               validate_email raw = Some (UserCreate.email user_create)) /\
  (payload !! "password" = Some (JStr (UserCreate.password user_create)) /\
   (8 <= String.length (UserCreate.password user_create) <= 128)%nat /\
   PyStr.any_isdigit (UserCreate.password user_create) = true /\
   PyStr.any_isupper (UserCreate.password user_create) = true).
Proof.
  unfold UserCreate.validate; rewrite AcceptFacts.model4_valid_iff.
  setoid_rewrite AcceptFacts.required_ok_iff.
  destruct user_create as [fn ln em pw]; simpl.
  intros (a & b & c & d & (v1 & H1 & C1) & (v2 & H2 & C2) & (v3 & H3 & C3)
          & (v4 & H4 & C4) & [= -> -> -> ->]).
  apply AcceptFacts.create_name_ok in C1 as (-> & ? & ?).
  apply AcceptFacts.create_name_ok in C2 as (-> & ? & ?).
  apply AcceptFacts.email_field_ok in C3 as (raw & -> & ?).
  apply AcceptFacts.create_password_ok in C4 as (-> & ? & ? & ?).
  repeat split; eauto; lia.
Qed.

Lemma update_valid_fields `{email_validator_lib} (payload : body_t)
    (user_update : UserUpdate.t) :
  UserUpdate.validate payload = Pydantic.Valid user_update ->
  (exists s, payload !! "first_name" = Some (JStr s) /\
             UserUpdate.first_name user_update = Some s /\
             (2 <= String.length s <= 128)%nat /\ PyStr.isalpha s = true) /\
  (exists s, payload !! "last_name" = Some (JStr s) /\
             UserUpdate.last_name user_update = Some s /\
             (2 <= String.length s <= 128)%nat /\ PyStr.isalpha s = true) /\
  ((payload !! "email" = Some JNull /\ UserUpdate.email user_update = None) \/
   (exists raw e, payload !! "email" = Some (JStr raw) /\ validate_email raw = Some e /\
                  UserUpdate.email user_update = Some e)) /\
  (exists s, payload !! "password" = Some (JStr s) /\
             UserUpdate.password user_update = Some s /\
             (8 <= String.length s <= 128)%nat /\
             PyStr.any_isdigit s = true /\ PyStr.any_isupper s = true).
Proof.
  unfold UserUpdate.validate; rewrite AcceptFacts.model4_valid_iff.
  setoid_rewrite AcceptFacts.required_ok_iff.
  destruct user_update as [fn ln em pw]; simpl.
  intros (a & b & c & d & (v1 & H1 & C1) & (v2 & H2 & C2) & (v3 & H3 & C3)
          & (v4 & H4 & C4) & [= -> -> -> ->]).
  apply UpdateAcceptFacts.update_name_ok in C1 as (s1 & -> & -> & ? & ?).
  apply UpdateAcceptFacts.update_name_ok in C2 as (s2 & -> & -> & ? & ?).
  apply UpdateAcceptFacts.update_password_ok in C4 as (s4 & -> & -> & ? & ? & ?).
  apply UpdateAcceptFacts.update_email_ok in C3
    as [[-> ->]|(raw & e & -> & ? & ->)];
    (split; [eauto 6 | split; [eauto 6 | split; [eauto 8 | eauto 8]]]).
Qed.

End ValidFacts.

(** X2.  A body that [UserUpdate] accepts holds [first_name], [last_name] and
    [password] as strings, which the validated object carries, and [email] as [null] or
    as a string that the e-mail check accepts: the only field of an accepted update
    that can be [None] is [email]. *)
Theorem accepted_update_only_email_none `{email_validator_lib} (payload : body_t)
    (user_update : UserUpdate.t) :
  UserUpdate.validate payload = Pydantic.Valid user_update ->
  (exists s, payload !! "first_name" = Some (JStr s) /\
             UserUpdate.first_name user_update = Some s) /\
  (exists s, payload !! "last_name" = Some (JStr s) /\
             UserUpdate.last_name user_update = Some s) /\
  (exists s, payload !! "password" = Some (JStr s) /\
             UserUpdate.password user_update = Some s) /\
  ((payload !! "email" = Some JNull /\ UserUpdate.email user_update = None) \/
   (exists raw e, payload !! "email" = Some (JStr raw) /\ validate_email raw = Some e /\
                  UserUpdate.email user_update = Some e)).
Proof.
  intros Hv.
  apply ValidFacts.update_valid_fields in Hv
    as ((fn & Hfn & Ufn & _) & (ln & Hln & Uln & _) & Hemail & (p & Hp & Up & _)).
  split; [eauto|]. split; [eauto|]. split; [eauto|]. exact Hemail.
Qed.

Lemma accepted_update_only_email_none_witness :
  UserUpdate.validate (H := Sample.email) Sample2.null_email_data
  = Pydantic.Valid Sample2.null_email_update /\
  exists s, Sample2.null_email_data !! "password" = Some (JStr s) /\
            UserUpdate.password Sample2.null_email_update = Some s.
Proof.
  split; [vm_compute; reflexivity|].
  destruct (@accepted_update_only_email_none Sample.email Sample2.null_email_data
              Sample2.null_email_update ltac:(vm_compute; reflexivity))
    as (_ & _ & Hp & _).
  exact Hp.
Defined.

(** ** When a request ends in an unhandled exception *)

Module CrashFacts.
Import Pydantic Invariants.






Lemma filter_id_none (l : list User.t) (user_id : Z) :
  Forall (fun u => User.id u <> user_id) l ->
  filter (fun u => User.id u = user_id) l = [].
Proof.
  induction 1 as [|a l Ha Hl IH]; [reflexivity|].
  rewrite filter_cons; destruct (decide (User.id a = user_id)); [contradiction | exact IH].
Qed.



Section Handlers.
Context `{bcrypt_lib}.





End Handlers.


End CrashFacts.



(** ** What a successful handler did *)

Module SuccessFacts.
Import Invariants.

Section SuccessFacts.
Context `{bcrypt_lib}.

Lemma create_user_success (user_create : UserCreate.t) (env : Env) (st st' : Store)
    (user : User.t) :
  create_user user_create env st = (st', Return user) ->
  commit_fault env = None /\ refresh_fault env = None /\
  Storage.email_taken st None (UserCreate.email user_create) = false /\
  user = Storage.stamp_insert st env
           (User.set_password
              (User.new (UserCreate.email user_create)
                 (UserCreate.first_name user_create)
                 (UserCreate.last_name user_create))
              (UserCreate.password user_create) (gensalt env)) /\
  st' = {| rows := rows st ++ [user]; next_id := next_id st + 1 |}.
Proof.
  unfold create_user, Storage.bind, Storage.commit_add, Storage.refresh.
  destruct (commit_fault env); simpl; [discriminate|].
  destruct (Storage.email_taken _ _ _) eqn:Ht; simpl in *; [discriminate|].
  destruct (refresh_fault env); simpl; [discriminate|].
  intros [= <- <-]; auto.
Qed.

Lemma update_user_success (user_id : Z) (user_update : UserUpdate.t) (env : Env)
    (st st' : Store) (user : User.t) :
  update_user user_id user_update env st = (st', Return user) ->
  exists user0,
    Storage.select_by_id st user_id = [user0] /\
    commit_fault env = None /\ refresh_fault env = None /\
    ((apply_update user_update env user0 = user0 /\ user = user0 /\ st' = st) \/
     (apply_update user_update env user0 <> user0 /\
      Storage.email_taken st (Some (User.id user0))
        (User.email (apply_update user_update env user0)) = false /\
      user = Storage.stamp_update env (apply_update user_update env user0) /\
      st' = {| rows := Storage.replace user (rows st); next_id := next_id st |})).
Proof.
  unfold update_user.
  destruct (Storage.scalar_one_or_none _) as [[user0|]|e] eqn:Hsel; try discriminate.
  apply WriteFacts.scalar_one_elem in Hsel.
  unfold Storage.bind, Storage.commit_dirty, Storage.refresh.
  destruct (commit_fault env); simpl; [discriminate|].
  case_bool_decide as Hsame; simpl.
  - destruct (refresh_fault env); simpl; [discriminate|].
    intros [= <- <-]; exists user0.
    split; [exact Hsel|]. do 2 (split; [reflexivity|]).
    left; rewrite Hsame; auto.
  - assert (Hid : User.id (apply_update user_update env user0) = User.id user0)
      by apply (apply_update_keeps_unset user_update env user0).
    rewrite Hid.
    destruct (Storage.email_taken _ _ _) eqn:Ht; simpl in *; [discriminate|].
    destruct (refresh_fault env); simpl; [discriminate|].
    intros [= <- <-]; exists user0.
    split; [exact Hsel|]. do 2 (split; [reflexivity|]).
    right; auto.
Qed.

Lemma delete_user_success (user_id : Z) (env : Env) (st st' : Store) :
  delete_user user_id env st = (st', Return tt) ->
  exists user,
    Storage.select_by_id st user_id = [user] /\ commit_fault env = None /\
    st' = {| rows := filter (fun r => User.id r <> user_id) (rows st);
             next_id := next_id st |}.
Proof.
  unfold delete_user.
  destruct (Storage.scalar_one_or_none _) as [[user|]|e] eqn:Hsel; try discriminate.
  apply WriteFacts.scalar_one_elem in Hsel.
  assert (Hid : User.id user = user_id).
  { apply (WriteFacts.select_by_id_elem st user_id user); rewrite Hsel.
    apply list_elem_of_here. }
  unfold Storage.commit_delete.
  destruct (commit_fault env); simpl; [discriminate|].
  intros [= <-]; exists user; rewrite Hid; auto.
Qed.

(** A response with a user in its body comes from a handler that returned. *)
Lemma respond_user (success code : nat) (o : outcome User.t) (v : UserRead.t) :
  respond success (fun u => UserJson (UserRead_of u)) o
  = {| status_code := code; body := UserJson v |} ->
  exists user, o = Return user /\ v = UserRead_of user /\ code = success.
Proof.
  destruct o as [user|c d|e]; simpl; try discriminate.
  intros [= <- <-]; eauto.
Qed.

End SuccessFacts.

Lemma select_by_id_app (l1 l2 : list User.t) (next : Z) (user_id : Z) :
  Storage.select_by_id {| rows := l1 ++ l2; next_id := next |} user_id
  = (filter (fun u => User.id u = user_id) l1
     ++ filter (fun u => User.id u = user_id) l2)%list.
Proof. unfold Storage.select_by_id; simpl; apply filter_app. Qed.

End SuccessFacts.

(** X4.  Round trip: when a POST is answered 201 with the view [v], the body held the
    names of [v] and an e-mail whose accepted form is that of [v], and a GET of the
    identity of [v] on the store the POST left is answered 200 with the same [v]. *)
Theorem create_then_get_round_trip `{bcrypt_lib} `{email_validator_lib}
    (payload : body_t) (env env' : Env) (session session' : Store) (v : UserRead.t) :
  Invariants.reachable session ->
  app (POST_users payload) env session
  = (session', {| status_code := 201; body := UserJson v |}) ->
  app (GET_user (UserRead.id v)) env' session'
  = (session', {| status_code := 200; body := UserJson v |}) /\
  payload !! "first_name" = Some (JStr (UserRead.first_name v)) /\
  payload !! "last_name" = Some (JStr (UserRead.last_name v)) /\
  (exists raw, payload !! "email" = Some (JStr raw) /\
               validate_email raw = Some (UserRead.email v)).
Proof.
  intros Hreach Hpost.
  destruct (OrderFacts.reachable_in_creation_order session Hreach) as [_ Hbound].
  unfold app in Hpost.
  destruct (UserCreate.validate payload) as [uc|errs|e] eqn:Hv;
    [|discriminate Hpost|discriminate Hpost].
  destruct (create_user uc env session) as [st' o] eqn:Hh.
  injection Hpost as -> Hresp.
  apply SuccessFacts.respond_user in Hresp as (user & -> & -> & _).
  apply SuccessFacts.create_user_success in Hh as (_ & _ & _ & Huser & ->).
  apply ValidFacts.create_valid_fields in Hv as ((Hfn & _) & (Hln & _) & Hem & _).
  split; [|rewrite Huser; simpl; auto].
  unfold app, get_user; rewrite SuccessFacts.select_by_id_app.
  rewrite CrashFacts.filter_id_none.
  - rewrite Huser; simpl.
    rewrite filter_cons, decide_True by reflexivity.
    rewrite filter_nil; reflexivity.
  - eapply Forall_impl; [exact Hbound|].
    simpl; intros u Hu; rewrite Huser; simpl; lia.
Qed.

Lemma create_then_get_round_trip_witness :
  @Invariants.reachable Sample.bcrypt Sample.email Storage.empty /\
  status_code
    (snd (@app Sample.bcrypt Sample.email (GET_user 1) Sample.env Sample.one_user))
  = 200.
Proof.
  split; [apply Invariants.reachable_empty|].
  exact (f_equal (fun p => status_code (snd p))
           (proj1 (@create_then_get_round_trip Sample.bcrypt Sample.email
                     Sample.user_data Sample.env Sample.env Storage.empty
                     Sample.one_user
                     (UserRead_of (Storage.stamp_insert Storage.empty Sample.env
                        (@User.set_password Sample.bcrypt
                           (User.new "usertest@test.com" "User" "Test")
                           "Passaword123" (gensalt Sample.env))))
                     Invariants.reachable_empty eq_refl))).
Defined.

(** ** Updates and deletions touch one row *)

Module FrameFacts.

Lemma filter_replace_other (row : User.t) (l : list User.t) (j : Z) :
  j <> User.id row ->
  filter (fun u => User.id u = j) (Storage.replace row l)
  = filter (fun u => User.id u = j) l.
Proof.
  intros Hj; unfold Storage.replace; induction l as [|a l IH]; [reflexivity|].
  simpl; rewrite !filter_cons, IH.
  case_bool_decide as Ha.
  - rewrite decide_False by congruence. rewrite decide_False by congruence. reflexivity.
  - reflexivity.
Qed.

Lemma filter_delete_other (i j : Z) (l : list User.t) :
  j <> i ->
  filter (fun u => User.id u = j) (filter (fun r => User.id r <> i) l)
  = filter (fun u => User.id u = j) l.
Proof.
  intros Hj; induction l as [|a l IH]; [reflexivity|].
  rewrite !filter_cons.
  destruct (decide (User.id a <> i)) as [Hne|Heq].
  - rewrite filter_cons, IH; reflexivity.
  - rewrite IH. rewrite decide_False; [reflexivity|].
    intros Ha; apply Heq; congruence.
Qed.

Lemma filter_delete_same (i : Z) (l : list User.t) :
  filter (fun u => User.id u = i) (filter (fun r => User.id r <> i) l) = [].
Proof.
  apply CrashFacts.filter_id_none, Forall_forall.
  intros u Hu; apply list_elem_of_filter in Hu as [Hne _]; exact Hne.
Qed.

Lemma replace_length (row : User.t) (l : list User.t) :
  length (Storage.replace row l) = length l.
Proof. unfold Storage.replace; apply length_map. Qed.

Section FrameFacts.
Context `{bcrypt_lib}.

(** The attributes after the assignments of [update_user]. *)
Lemma apply_update_fields (user_update : UserUpdate.t) (env : Env) (user : User.t) :
  User.id (apply_update user_update env user) = User.id user /\
  User.created_at (apply_update user_update env user) = User.created_at user /\
  User.email (apply_update user_update env user)
  = (if PyStr.truthy (UserUpdate.email user_update)
     then default "" (UserUpdate.email user_update) else User.email user) /\
  User.first_name (apply_update user_update env user)
  = (if PyStr.truthy (UserUpdate.first_name user_update)
     then default "" (UserUpdate.first_name user_update) else User.first_name user) /\
  User.last_name (apply_update user_update env user)
  = (if PyStr.truthy (UserUpdate.last_name user_update)
     then default "" (UserUpdate.last_name user_update) else User.last_name user).
Proof.
  destruct user_update as [fn ln em pw]; unfold apply_update, assign_if; simpl.
  destruct (PyStr.truthy em) eqn:Eem, (PyStr.truthy fn) eqn:Efn,
    (PyStr.truthy ln) eqn:Eln, (PyStr.truthy pw) eqn:Epw;
    destruct em, fn, ln, pw; try discriminate; simpl; repeat split; reflexivity.
Qed.

(** The row that [update_user] returns, against the row it loaded. *)
Lemma update_user_target (user_id : Z) (user_update : UserUpdate.t) (env : Env)
    (st st' : Store) (user : User.t) :
  update_user user_id user_update env st = (st', Return user) ->
  exists user0,
    Storage.select_by_id st user_id = [user0] /\
    User.id user = user_id /\
    User.created_at user = User.created_at user0 /\
    User.email user
    = (if PyStr.truthy (UserUpdate.email user_update)
       then default "" (UserUpdate.email user_update) else User.email user0) /\
    User.first_name user
    = (if PyStr.truthy (UserUpdate.first_name user_update)
       then default "" (UserUpdate.first_name user_update) else User.first_name user0) /\
    User.last_name user
    = (if PyStr.truthy (UserUpdate.last_name user_update)
       then default "" (UserUpdate.last_name user_update) else User.last_name user0) /\
    (PyStr.truthy (UserUpdate.password user_update) = false ->
     User.salt user = User.salt user0 /\ User.password user = User.password user0).
Proof.
  intros Hret.
  apply SuccessFacts.update_user_success in Hret
    as (user0 & Hsel & _ & _ & Hcase).
  assert (Hid0 : User.id user0 = user_id).
  { apply (WriteFacts.select_by_id_elem st user_id user0); rewrite Hsel.
    apply list_elem_of_here. }
  destruct (apply_update_fields user_update env user0)
    as (Hid & Hcr & Hem & Hfn & Hln).
  pose proof (apply_update_keeps_unset user_update env user0) as (_ & _ & _ & _ & Hpw).
  exists user0.
  destruct Hcase as [(Hsame & -> & ->)|(Hdiff & _ & -> & ->)].
  - rewrite Hsame in *; repeat split; auto.
  - simpl; repeat split; auto; try congruence; now apply Hpw.
Qed.

End FrameFacts.
End FrameFacts.

(** X5.  When [update_user] returns, it changed one row: the row of the identity, in
    which [id] and [created_at] stay, [email], [first_name] and [last_name] take the
    non-empty values of the payload and keep their value otherwise, and salt and hash
    stay unless a password is given; the number of rows and the next identity stay, and
    every other identity resolves to what it resolved to before. *)
Theorem update_user_changes_only_target `{bcrypt_lib}
    (user_id : Z) (user_update : UserUpdate.t) (env : Env) (session session' : Store)
    (user : User.t) :
  update_user user_id user_update env session = (session', Return user) ->
  (exists user0,
     Storage.select_by_id session user_id = [user0] /\
     User.id user = user_id /\
     User.created_at user = User.created_at user0 /\
     User.email user
     = (if PyStr.truthy (UserUpdate.email user_update)
        then default "" (UserUpdate.email user_update) else User.email user0) /\
     User.first_name user
     = (if PyStr.truthy (UserUpdate.first_name user_update)
        then default "" (UserUpdate.first_name user_update) else User.first_name user0) /\
     User.last_name user
     = (if PyStr.truthy (UserUpdate.last_name user_update)
        then default "" (UserUpdate.last_name user_update) else User.last_name user0) /\
     (PyStr.truthy (UserUpdate.password user_update) = false ->
      User.salt user = User.salt user0 /\ User.password user = User.password user0)) /\
  next_id session' = next_id session /\
  length (rows session') = length (rows session) /\
  (forall j, j <> user_id ->
             Storage.select_by_id session' j = Storage.select_by_id session j).
Proof.
  intros Hret; split; [exact (FrameFacts.update_user_target _ _ _ _ _ _ Hret)|].
  apply SuccessFacts.update_user_success in Hret
    as (user0 & Hsel & _ & _ & Hcase).
  assert (Hid0 : User.id user0 = user_id).
  { apply (WriteFacts.select_by_id_elem session user_id user0); rewrite Hsel.
    apply list_elem_of_here. }
  destruct (FrameFacts.apply_update_fields user_update env user0) as (Hid & _).
  destruct Hcase as [(_ & _ & ->)|(_ & _ & -> & ->)]; [auto|].
  split; [reflexivity|split].
  - simpl; apply FrameFacts.replace_length.
  - intros j Hj; unfold Storage.select_by_id; simpl.
    apply FrameFacts.filter_replace_other; simpl; congruence.
Qed.

Lemma update_user_changes_only_target_witness :
  @update_user Sample.bcrypt 1 Sample2.email_only Sample.env Sample.one_user
  = (Sample2.one_user_renamed, Return Sample2.renamed) /\
  next_id Sample2.one_user_renamed = next_id Sample.one_user.
Proof.
  split; [reflexivity|].
  exact (proj1 (proj2 (@update_user_changes_only_target Sample.bcrypt 1
                         Sample2.email_only Sample.env Sample.one_user
                         Sample2.one_user_renamed Sample2.renamed eq_refl))).
Defined.

(** X6.  When [delete_user] returns, the identity resolves to no row: a GET and a
    second DELETE of it end in 404; every other identity resolves to what it resolved
    to before. *)
Theorem delete_user_removes_only_target `{bcrypt_lib}
    (user_id : Z) (env env' : Env) (session session' : Store) :
  delete_user user_id env session = (session', Return tt) ->
  Storage.select_by_id session' user_id = [] /\
  get_user user_id session'
  = (session', HTTPException HTTP_404_NOT_FOUND "User not found") /\
  delete_user user_id env' session'
  = (session', HTTPException HTTP_404_NOT_FOUND "User not found") /\
  (forall j, j <> user_id ->
             Storage.select_by_id session' j = Storage.select_by_id session j).
Proof.
  intros Hret.
  apply SuccessFacts.delete_user_success in Hret as (user & _ & _ & ->).
  assert (Hnone : Storage.select_by_id
                    {| rows := filter (fun r => User.id r <> user_id) (rows session);
                       next_id := next_id session |} user_id = [])
    by apply FrameFacts.filter_delete_same.
  split; [exact Hnone|].
  split; [unfold get_user; now rewrite Hnone|].
  split; [unfold delete_user; now rewrite Hnone|].
  intros j Hj; unfold Storage.select_by_id; simpl.
  now apply FrameFacts.filter_delete_other.
Qed.

Lemma delete_user_removes_only_target_witness :
  @delete_user 1 Sample.env Sample.one_user
  = ({| rows := []; next_id := 2 |}, Return tt) /\
  get_user 1 {| rows := []; next_id := 2 |}
  = ({| rows := []; next_id := 2 |},
     HTTPException HTTP_404_NOT_FOUND "User not found").
Proof.
  split; [reflexivity|].
  exact (proj1 (proj2 (@delete_user_removes_only_target Sample.bcrypt 1 Sample.env
                         Sample.env Sample.one_user {| rows := []; next_id := 2 |}
                         eq_refl))).
Defined.

(** ** E-mails stay unique *)

Module UniqueFacts.
Import Invariants.

Lemma emails_filter (P : User.t -> Prop) `{forall u, Decision (P u)} (l : list User.t) :
  NoDup (map User.email l) -> NoDup (map User.email (filter P l)).
Proof.
  induction l as [|a l IH]; simpl; [auto|].
  rewrite NoDup_cons; intros [Ha Hl].
  rewrite filter_cons; destruct (decide (P a)); [|auto].
  simpl; apply NoDup_cons; split; [|auto].
  intros Hin; apply Ha.
  apply (list_elem_of_fmap User.email) in Hin as (u & -> & Hu).
  apply list_elem_of_filter in Hu as [_ Hu].
  apply (list_elem_of_fmap User.email); eauto.
Qed.

Lemma emails_snoc (l : list User.t) (row : User.t) :
  NoDup (map User.email l) -> (forall u, u ∈ l -> User.email u <> User.email row) ->
  NoDup (map User.email (l ++ [row])).
Proof.
  intros Hl Hrow; rewrite map_app; apply NoDup_app; repeat split; auto.
  - intros e He Hin; simpl in Hin; apply list_elem_of_singleton in Hin as ->.
    apply (list_elem_of_fmap User.email) in He as (u & Heq & Hu).
    apply (Hrow u Hu); congruence.
  - simpl; apply NoDup_singleton.
Qed.

Lemma replace_fresh (row : User.t) (l : list User.t) :
  Forall (fun u => User.id u <> User.id row) l -> Storage.replace row l = l.
Proof.
  unfold Storage.replace; induction 1 as [|a l Ha Hl IH]; [reflexivity|].
  simpl; rewrite IH; now rewrite bool_decide_eq_false_2.
Qed.

Lemma emails_replace (row : User.t) (l : list User.t) :
  StronglySorted id_lt l -> NoDup (map User.email l) ->
  (forall u, u ∈ l -> User.id u <> User.id row -> User.email u <> User.email row) ->
  NoDup (map User.email (Storage.replace row l)).
Proof.
  induction 1 as [|a l Hl IH Ha]; [intros; constructor|].
  simpl; rewrite NoDup_cons; intros [Hna Hnl] Hrow.
  assert (Hrow' : forall u, u ∈ l -> User.id u <> User.id row ->
                            User.email u <> User.email row).
  { intros u Hu; apply Hrow; now apply list_elem_of_further. }
  case_bool_decide as Hid.
  - assert (Hfresh : Forall (fun u => User.id u <> User.id row) l).
    { eapply Forall_impl; [exact Ha | simpl; intros u Hu; lia]. }
    change (map _ l) with (Storage.replace row l); rewrite (replace_fresh row l Hfresh).
    apply NoDup_cons; split; [|exact Hnl].
    intros Hin; apply (list_elem_of_fmap User.email) in Hin as (u & Heq & Hu).
    rewrite Forall_forall in Hfresh.
    apply (Hrow' u Hu (Hfresh u Hu)); congruence.
  - apply NoDup_cons; split; [|now apply IH].
    intros Hin; apply (list_elem_of_fmap User.email) in Hin as (u' & Heq & Hu').
    apply (list_elem_of_fmap _) in Hu' as (u & -> & Hu).
    case_bool_decide as Hu_id.
    + apply (Hrow a); [apply list_elem_of_here | exact Hid | exact Heq].
    + apply Hna; apply (list_elem_of_fmap User.email); eauto.
Qed.

Section UniqueFacts.
Context `{bcrypt_lib}.

Lemma create_user_unique (user_create : UserCreate.t) (env : Env) (st : Store) :
  NoDup (map User.email (rows st)) -> NoDup (map User.email (rows (fst (create_user user_create env st)))).
Proof.
  intros Hu.
  unfold create_user, Storage.bind, Storage.commit_add, Storage.refresh.
  destruct (commit_fault env); simpl; [exact Hu|].
  destruct (Storage.email_taken _ _ _) eqn:Ht; simpl in *; [exact Hu|].
  assert (Hnew : NoDup (map User.email (rows st ++
            [Storage.stamp_insert st env
               (User.set_password
                  (User.new (UserCreate.email user_create)
                     (UserCreate.first_name user_create)
                     (UserCreate.last_name user_create))
                  (UserCreate.password user_create) (gensalt env))]))).
  { apply emails_snoc; [exact Hu|]. simpl; intros u Hin Heq.
    assert (Htaken : Storage.email_taken st None (UserCreate.email user_create) = true)
      by (apply StorageFacts.email_taken_iff; exists u; repeat split; auto; discriminate).
    congruence. }
  destruct (refresh_fault env); simpl; exact Hnew.
Qed.

Lemma update_user_unique (user_id : Z) (user_update : UserUpdate.t) (env : Env)
    (st : Store) :
  StronglySorted id_lt (rows st) -> NoDup (map User.email (rows st)) ->
  NoDup (map User.email (rows (fst (update_user user_id user_update env st)))).
Proof.
  intros Hs Hu; unfold update_user.
  destruct (Storage.scalar_one_or_none _) as [[user0|]|e] eqn:Hsel; simpl; auto.
  unfold Storage.bind, Storage.commit_dirty, Storage.refresh.
  destruct (commit_fault env); simpl; [exact Hu|].
  case_bool_decide as Hsame; simpl.
  { destruct (refresh_fault env); simpl; exact Hu. }
  destruct (Storage.email_taken _ _ _) eqn:Ht; simpl in *; [exact Hu|].
  assert (Hnew : NoDup (map User.email (Storage.replace
            (Storage.stamp_update env (apply_update user_update env user0)) (rows st)))).
  { apply emails_replace; auto.
    simpl; intros u Hin Hid Heq.
    assert (Htaken : Storage.email_taken st
              (Some (User.id (apply_update user_update env user0)))
              (User.email (apply_update user_update env user0)) = true).
    { apply StorageFacts.email_taken_iff; exists u; repeat split; auto; congruence. }
    congruence. }
  destruct (refresh_fault env); simpl; exact Hnew.
Qed.

Lemma delete_user_unique (user_id : Z) (env : Env) (st : Store) :
  NoDup (map User.email (rows st)) -> NoDup (map User.email (rows (fst (delete_user user_id env st)))).
Proof.
  intros Hu; unfold delete_user.
  destruct (Storage.scalar_one_or_none _) as [[user0|]|e]; simpl; auto.
  unfold Storage.commit_delete.
  destruct (commit_fault env); simpl; [exact Hu | now apply emails_filter].
Qed.

Context `{email_validator_lib}.

Lemma app_unique (req : Request) (env : Env) (st : Store) :
  StronglySorted id_lt (rows st) -> NoDup (map User.email (rows st)) ->
  NoDup (map User.email (rows (fst (app req env st)))).
Proof.
  intros Hs Hu.
  destruct req as [payload| |user_id|user_id payload|user_id]; unfold app.
  - destruct (UserCreate.validate payload) as [uc| |]; simpl; auto.
    generalize (create_user_unique uc env st Hu).
    now destruct (create_user uc env st).
  - unfold get_users; destruct (Nat.eqb _ _); exact Hu.
  - unfold get_user.
    destruct (Storage.scalar_one_or_none _) as [[user0|]|e]; exact Hu.
  - destruct (UserUpdate.validate payload) as [uu| |]; simpl; auto.
    generalize (update_user_unique user_id uu env st Hs Hu).
    now destruct (update_user user_id uu env st).
  - generalize (delete_user_unique user_id env st Hu).
    now destruct (delete_user user_id env st).
Qed.

End UniqueFacts.
End UniqueFacts.

(** X7.  In every store the service can reach no two rows hold the same e-mail, and no
    two rows hold the same identity. *)
Theorem reachable_unique_emails `{bcrypt_lib} `{email_validator_lib} (session : Store) :
  Invariants.reachable session ->
  NoDup (map User.email (rows session)) /\ NoDup (map User.id (rows session)).
Proof.
  intros Hreach; split.
  - induction Hreach as [|req env st Hst IH]; [constructor|].
    apply UniqueFacts.app_unique; [|exact IH].
    apply (OrderFacts.reachable_in_creation_order st Hst).
  - destruct (OrderFacts.reachable_in_creation_order session Hreach) as [Hs _].
    clear Hreach; induction Hs as [|a l Hl IH Ha]; simpl; [constructor|].
    apply NoDup_cons; split; [|exact IH].
    intros Hin; apply (list_elem_of_fmap User.id) in Hin as (u & Heq & Hu).
    rewrite Forall_forall in Ha; specialize (Ha u Hu); simpl in Ha; lia.
Qed.

Lemma reachable_unique_emails_witness :
  @Invariants.reachable Sample.bcrypt Sample.email
    (fst (@app Sample.bcrypt Sample.email (POST_users Sample.user_data) Sample.env
            Storage.empty)) /\
  NoDup (map User.email
           (rows (fst (@app Sample.bcrypt Sample.email (POST_users Sample.user_data)
                         Sample.env Storage.empty)))).
Proof.
  split; [apply Invariants.reachable_app, Invariants.reachable_empty|].
  exact (proj1 (@reachable_unique_emails Sample.bcrypt Sample.email _
                  (Invariants.reachable_app _ _ _ Invariants.reachable_empty))).
Defined.

(** ** Failures and the store *)

Module AtomicFacts.

Section AtomicFacts.
Context `{bcrypt_lib}.

Lemma create_user_failure (user_create : UserCreate.t) (env : Env) (st : Store) :
  refresh_fault env = None ->
  (exists user, snd (create_user user_create env st) = Return user) \/
  fst (create_user user_create env st) = st.
Proof.
  intros Hr; unfold create_user, Storage.bind, Storage.commit_add, Storage.refresh.
  destruct (commit_fault env); simpl; [auto|].
  destruct (Storage.email_taken _ _ _); simpl; [auto|].
  rewrite Hr; simpl; eauto.
Qed.

Lemma update_user_failure (user_id : Z) (user_update : UserUpdate.t) (env : Env)
    (st : Store) :
  refresh_fault env = None ->
  (exists user, snd (update_user user_id user_update env st) = Return user) \/
  fst (update_user user_id user_update env st) = st.
Proof.
  intros Hr; unfold update_user.
  destruct (Storage.scalar_one_or_none _) as [[user0|]|e]; simpl; auto.
  unfold Storage.bind, Storage.commit_dirty, Storage.refresh.
  destruct (commit_fault env); simpl; [auto|].
  case_bool_decide; simpl; [rewrite Hr; simpl; eauto|].
  destruct (Storage.email_taken _ _ _); simpl; [auto|].
  rewrite Hr; simpl; eauto.
Qed.

Lemma delete_user_failure (user_id : Z) (env : Env) (st : Store) :
  snd (delete_user user_id env st) = Return tt \/
  fst (delete_user user_id env st) = st.
Proof.
  unfold delete_user.
  destruct (Storage.scalar_one_or_none _) as [[user0|]|e]; simpl; auto.
  unfold Storage.commit_delete; destruct (commit_fault env); simpl; auto.
Qed.

End AtomicFacts.
End AtomicFacts.

(** X8.  As long as [refresh] does not fail, a request that is not answered with a
    success status (200, 201, 204) leaves the store as it was: validation errors, 404,
    the 400 of a conflict and the 500 of a failed [commit] write nothing. *)
Theorem failed_request_leaves_store `{bcrypt_lib} `{email_validator_lib}
    (req : Request) (env : Env) (session : Store) :
  refresh_fault env = None ->
  (400 <= status_code (snd (app req env session)))%nat ->
  fst (app req env session) = session.
Proof.
  intros Hr.
  destruct req as [payload| |user_id|user_id payload|user_id]; unfold app.
  - destruct (UserCreate.validate payload) as [uc| |]; simpl; auto.
    destruct (AtomicFacts.create_user_failure uc env session Hr) as [[user Hu]|Hst];
      destruct (create_user uc env session) as [st' o]; simpl in *; auto.
    subst o; simpl; unfold HTTP_201_CREATED; lia.
  - unfold get_users; destruct (Nat.eqb _ _); reflexivity.
  - unfold get_user.
    destruct (Storage.scalar_one_or_none _) as [[user0|]|e]; reflexivity.
  - destruct (UserUpdate.validate payload) as [uu| |]; simpl; auto.
    destruct (AtomicFacts.update_user_failure user_id uu env session Hr)
      as [[user Hu]|Hst];
      destruct (update_user user_id uu env session) as [st' o]; simpl in *; auto.
    subst o; simpl; unfold HTTP_200_OK; lia.
  - destruct (AtomicFacts.delete_user_failure user_id env session) as [Hu|Hst];
      destruct (delete_user user_id env session) as [st' o]; simpl in *; auto.
    subst o; simpl; unfold HTTP_204_NO_CONTENT; lia.
Qed.

Lemma failed_request_leaves_store_witness :
  refresh_fault Sample.env = None /\
  (400 <= status_code
            (snd (@app Sample.bcrypt Sample.email (POST_users Sample.user_data)
                    Sample.env Sample.one_user)))%nat /\
  fst (@app Sample.bcrypt Sample.email (POST_users Sample.user_data) Sample.env
         Sample.one_user) = Sample.one_user.
Proof.
  split; [reflexivity|].
  split; [vm_compute; lia|].
  apply (@failed_request_leaves_store Sample.bcrypt Sample.email
           (POST_users Sample.user_data) Sample.env Sample.one_user eq_refl).
  vm_compute; lia.
Defined.

(** X9.  [create_user] commits before it refreshes, in one [try]: when the INSERT goes
    through and [refresh] then fails, the request is answered 500 although the new row
    is stored; sending the same body again, with the storage in order, is answered 400
    "User with this email already exists". *)
Theorem create_refresh_failure_keeps_row `{bcrypt_lib} `{email_validator_lib}
    (payload : body_t) (user_create : UserCreate.t) (env env' : Env) (session : Store)
    (err : string) :
  UserCreate.validate payload = Pydantic.Valid user_create ->
  commit_fault env = None ->
  Storage.email_taken session None (UserCreate.email user_create) = false ->
  refresh_fault env = Some err ->
  commit_fault env' = None ->
  exists user,
    app (POST_users payload) env session
    = ({| rows := rows session ++ [user]; next_id := next_id session + 1 |},
       {| status_code := 500; body := Detail ("Unable to create user: " +:+ err) |}) /\
    User.email user = UserCreate.email user_create /\
    snd (app (POST_users payload) env'
           {| rows := rows session ++ [user]; next_id := next_id session + 1 |})
    = {| status_code := 400; body := Detail "User with this email already exists" |}.
Proof.
  intros Hv Hc Hfree Hr Hc'.
  eexists; split; [|split].
  - unfold app; rewrite Hv.
    unfold create_user, Storage.bind, Storage.commit_add, Storage.refresh.
    simpl; rewrite Hc, Hfree, Hr; simpl; reflexivity.
  - reflexivity.
  - unfold app; rewrite Hv.
    unfold create_user, Storage.bind, Storage.commit_add, Storage.refresh.
    simpl; rewrite Hc'.
    match goal with
    | |- context [Storage.email_taken ?st None ?e] =>
        assert (Htaken : Storage.email_taken st None e = true)
    end.
    { apply StorageFacts.email_taken_iff; eexists; split; [|split].
      - simpl; apply elem_of_app; right; apply list_elem_of_here.
      - reflexivity.
      - discriminate. }
    rewrite Htaken; reflexivity.
Qed.

Lemma create_refresh_failure_keeps_row_witness :
  @UserCreate.validate Sample.email Sample.user_data = Pydantic.Valid Sample.user_create /\
  length (rows (fst (@app Sample.bcrypt Sample.email (POST_users Sample.user_data)
                       Sample2.env_refresh_fails Storage.empty))) = 1%nat.
Proof.
  split; [reflexivity|].
  destruct (@create_refresh_failure_keeps_row Sample.bcrypt Sample.email
              Sample.user_data Sample.user_create Sample2.env_refresh_fails Sample.env
              Storage.empty "connection lost" eq_refl eq_refl eq_refl eq_refl eq_refl)
    as (user & -> & _).
  reflexivity.
Defined.

(** ** Passwords that were set verify *)

Module VerifyFacts.
Import Invariants.

Lemma fresh_credentials_verify `{bcrypt_lib} (env : Env) (p : string) (user : User.t) :
  String.length (gensalt env) = 29 ->
  fresh_credentials env p user -> User.check_password user p = true.
Proof.
  intros Hlen [_ Hpw]; unfold User.check_password; rewrite Hpw.
  now apply BcryptFacts.checkpw_hashpw.
Qed.

End VerifyFacts.

(** X10.  With a well-formed salt from bcrypt, the user that [create_user] returns
    verifies the password of the payload, and the user that [update_user] returns for a
    payload with a password verifies that password. *)
Theorem stored_password_verifies `{bcrypt_lib} (env : Env) :
  String.length (gensalt env) = 29 ->
  (forall (user_create : UserCreate.t) (session session' : Store) (user : User.t),
     create_user user_create env session = (session', Return user) ->
     User.check_password user (UserCreate.password user_create) = true) /\
  (forall (user_id : Z) (user_update : UserUpdate.t) (session session' : Store)
          (user : User.t) (p : string),
     update_user user_id user_update env session = (session', Return user) ->
     UserUpdate.password user_update = Some p -> p <> "" ->
     User.check_password user p = true).
Proof.
  intros Hlen; split.
  - intros uc st st' user Hret.
    apply (VerifyFacts.fresh_credentials_verify env _ user Hlen).
    apply (CredentialFacts.create_user_return uc env st st' user Hret).
  - intros user_id uu st st' user p Hret Hp Hne.
    apply (VerifyFacts.fresh_credentials_verify env _ user Hlen).
    now apply (CredentialFacts.update_user_return user_id uu env st st' user Hret).
Qed.

Lemma stored_password_verifies_witness :
  String.length (gensalt Sample.env) = 29 /\
  @User.check_password Sample.bcrypt
    (Storage.stamp_insert Storage.empty Sample.env
       (@User.set_password Sample.bcrypt (User.new "usertest@test.com" "User" "Test")
          "Passaword123" (gensalt Sample.env)))
    "Passaword123" = true.
Proof.
  split; [reflexivity|].
  exact (proj1 (@stored_password_verifies Sample.bcrypt Sample.env eq_refl)
           Sample.user_create Storage.empty Sample.one_user _ eq_refl).
Defined.

(** X11.  [update_user] with an e-mail that another row holds (and the addressed row
    does not) ends in 400 "User with this email already exists" and leaves the store as
    it was. *)
Theorem update_to_taken_email_conflicts `{bcrypt_lib}
    (user_id : Z) (user_update : UserUpdate.t) (env : Env) (session : Store)
    (user0 other : User.t) (e : string) :
  Storage.select_by_id session user_id = [user0] ->
  commit_fault env = None ->
  UserUpdate.email user_update = Some e -> e <> "" ->
  User.email user0 <> e ->
  other ∈ rows session -> User.id other <> user_id -> User.email other = e ->
  update_user user_id user_update env session
  = (session, HTTPException HTTP_400_BAD_REQUEST "User with this email already exists").
Proof.
  intros Hsel Hc He Hne Hold Hin Hother Hemail.
  assert (Hid0 : User.id user0 = user_id).
  { apply (WriteFacts.select_by_id_elem session user_id user0); rewrite Hsel.
    apply list_elem_of_here. }
  destruct (FrameFacts.apply_update_fields user_update env user0)
    as (Hid & _ & Hem & _).
  assert (Htruthy : PyStr.truthy (UserUpdate.email user_update) = true)
    by (rewrite He; destruct e; [congruence | reflexivity]).
  rewrite Htruthy, He in Hem; simpl in Hem.
  assert (Hdiff : apply_update user_update env user0 <> user0) by congruence.
  assert (Htaken : Storage.email_taken session
            (Some (User.id (apply_update user_update env user0)))
            (User.email (apply_update user_update env user0)) = true).
  { apply StorageFacts.email_taken_iff; exists other; repeat split; auto; congruence. }
  unfold update_user; rewrite Hsel; simpl.
  unfold Storage.bind, Storage.commit_dirty; rewrite Hc.
  rewrite bool_decide_eq_false_2 by exact Hdiff.
  rewrite Htaken; reflexivity.
Qed.

Lemma update_to_taken_email_conflicts_witness :
  Storage.select_by_id Sample2.two_users 2 <> [] /\
  @update_user Sample.bcrypt 2 Sample2.email_only Sample.env Sample2.two_users
  = (Sample2.two_users,
     HTTPException HTTP_400_BAD_REQUEST "User with this email already exists").
Proof.
  split; [discriminate|].
  apply (@update_to_taken_email_conflicts Sample.bcrypt 2 Sample2.email_only Sample.env
           Sample2.two_users
           (Storage.stamp_insert
              (fst (@app Sample.bcrypt Sample.email (POST_users Tests.user_data1)
                      Sample.env Storage.empty))
              Sample.env
              (@User.set_password Sample.bcrypt
                 (User.new "usertest2@test.com" "UserS" "TestS") "Passaword123"
                 (gensalt Sample.env)))
           (Storage.stamp_insert Storage.empty Sample.env
              (@User.set_password Sample.bcrypt
                 (User.new "usertest1@test.com" "UserF" "TestF") "Passaword123"
                 (gensalt Sample.env)))
           "usertest1@test.com");
    try reflexivity; try discriminate.
  apply list_elem_of_here.
Defined.

(** ** What a successful PUT wrote *)



(** ** The life of a manager *)

Module LifecycleFacts.
Import Database.

(** [self.engine] is never [None]: it is the class, with no registry, until an
    [init_db] from whose URL [create_async_engine] made an engine; from then on it is
    an engine, with a registry. *)
Lemma reachable_engine (m : DatabaseManager) :
  Lifecycle.reachable m ->
  (engine m = Some AsyncEngine_class /\ session m = None) \/
  (exists disposed s, engine m = Some (engine_instance disposed) /\ session m = Some s).
Proof.
  induction 1 as [|m url create_error connect scoped Hm IH|m Hm IH|m s Hm IH|m Hm IH].
  - left; split; reflexivity.
  - unfold init_db; destruct url as [url|], create_error as [err|]; try exact IH.
    right; exists false, scoped; destruct connect; split; reflexivity.
  - unfold close; destruct IH as [[He Hs]|(d & s & He & Hs)]; rewrite He; simpl.
    + left; auto.
    + right; exists true, s; auto.
  - exact IH.
  - exact IH.
Qed.

End LifecycleFacts.

(** X14.  On every manager that [DatabaseManager()], [init_db], [close] and the
    test-session setters can produce: [close] never raises its "Engine not initialized"
    exception; it succeeds exactly when [get_db] hands out a session; [close] does not
    stop [get_db] from handing out the same session afterwards; an [init_db] without a
    URL, or with one that [create_async_engine] refuses, leaves the manager as it was;
    and after an [init_db] from whose URL [create_async_engine] made an engine, [close]
    succeeds, even if the database could then not be reached. *)
Theorem manager_guards_never_fire (m : Database.DatabaseManager) :
  Lifecycle.reachable m ->
  snd (Database.close m)
  <> Raise (Exception "Can't dispose engine. Engine not initialized") /\
  (snd (Database.close m) = Ret tt <-> is_Some (Database.session m)) /\
  (forall use, is_Some (Database.yielded (Database.get_db m use))
               <-> is_Some (Database.session m)) /\
  (forall use, Database.yielded (Database.get_db (fst (Database.close m)) use)
               = Database.yielded (Database.get_db m use)) /\
  (forall create_error connect scoped,
     fst (Database.init_db m None create_error connect scoped) = m) /\
  (forall url err connect scoped,
     fst (Database.init_db m (Some url) (Some err) connect scoped) = m) /\
  (forall url connect scoped,
     snd (Database.close (fst (Database.init_db m (Some url) None connect scoped)))
     = Ret tt).
Proof.
  intros Hreach.
  assert (Htail :
    (forall create_error connect scoped,
       fst (Database.init_db m None create_error connect scoped) = m) /\
    (forall url err connect scoped,
       fst (Database.init_db m (Some url) (Some err) connect scoped) = m) /\
    (forall url connect scoped,
       snd (Database.close (fst (Database.init_db m (Some url) None connect scoped)))
       = Ret tt)).
  { split; [reflexivity|]. split; [reflexivity|].
    intros url connect scoped; destruct connect; reflexivity. }
  cut (snd (Database.close m)
       <> Raise (Exception "Can't dispose engine. Engine not initialized") /\
       (snd (Database.close m) = Ret tt <-> is_Some (Database.session m)) /\
       (forall use, is_Some (Database.yielded (Database.get_db m use))
                    <-> is_Some (Database.session m)) /\
       (forall use, Database.yielded (Database.get_db (fst (Database.close m)) use)
                    = Database.yielded (Database.get_db m use))).
  { intros (H1 & H2 & H3 & H4); auto. }
  clear Htail.
  destruct (LifecycleFacts.reachable_engine m Hreach) as [[He Hs]|(d & s & He & Hs)].
  - unfold Database.close; rewrite He; simpl.
    unfold Database.get_db; rewrite Hs; simpl.
    split; [discriminate|].
    split; [split; [discriminate | intros [x Hx]; discriminate]|].
    split; [intros use; split; intros [x Hx]; discriminate|].
    reflexivity.
  - unfold Database.close; rewrite He; simpl.
    unfold Database.get_db; simpl; rewrite Hs; simpl.
    split; [discriminate|].
    split; [split; eauto|].
    split.
    { intros use; split; [eauto|]. intros _.
      destruct (use _); simpl; eauto. }
    intros use; destruct (use _); reflexivity.
Qed.

Lemma manager_guards_never_fire_witness :
  Lifecycle.reachable Sample2.manager_no_database /\
  snd (Database.close Sample2.manager_no_database) = Ret tt.
Proof.
  split; [apply Lifecycle.reachable_init_db, Lifecycle.reachable_new|].
  apply (proj2 (proj1 (proj2
           (manager_guards_never_fire Sample2.manager_no_database
              (Lifecycle.reachable_init_db _ _ _ _ _ Lifecycle.reachable_new))))).
  eexists; reflexivity.
Defined.

(** ** What the bodies of the responses hold *)

